(** * momentdb: the segment record layer and the atomic counter

    A shallow embedding of [vfs/segment.go] and [types/number.go].

    - Fixed-width Go integers are integers of [Z] with the wrap-around of
      every conversion and operation written out.
    - Go's [(value, error)] results are values of [result]; a run-time panic
      is a third outcome.
    - The wall clock read by [time.Now()] and the receiver mutated by the
      atomic counter methods are threaded through a state monad. *)

From Stdlib Require Import ZArith List String Ascii Strings.Byte Bool Lia.
From ExtLib Require Import Structures.Monad Structures.MonadState.
From ExtLib Require Import Data.Monads.StateMonad.
Import ListNotations.
Import MonadNotation.
Local Open Scope Z_scope.
Local Open Scope monad_scope.

(** ** Machine integers *)

(** Conversion of an integer to [uint32], [uint64] and [int64]: the value is
    reduced modulo the width, two's complement for the signed type. *)
Definition uint32 (z : Z) : Z := z mod 2 ^ 32.
Definition uint64 (z : Z) : Z := z mod 2 ^ 64.
Definition int64 (z : Z) : Z := (z + 2 ^ 63) mod 2 ^ 64 - 2 ^ 63.

Definition is_uint32 (z : Z) : Prop := 0 <= z < 2 ^ 32.
Definition is_uint64 (z : Z) : Prop := 0 <= z < 2 ^ 64.
Definition is_int64 (z : Z) : Prop := - 2 ^ 63 <= z < 2 ^ 63.

Definition MaxInt64 : Z := 2 ^ 63 - 1.
Definition MinInt64 : Z := - 2 ^ 63.

(** ** Errors and results *)

(** An [error] value, by the call that built it.  [fmt_Errorf_w] is
    [fmt.Errorf(prefix + "%w", wrapped)]. *)
Inductive error : Type :=
| errors_New (text : string)
| fmt_Errorf (text : string)
| fmt_Errorf_w (prefix : string) (wrapped : error).

(** The [Error()] method: the message of an error. *)
Fixpoint Error (e : error) : string :=
  match e with
  | errors_New text => text
  | fmt_Errorf text => text
  | fmt_Errorf_w prefix wrapped => (prefix ++ Error wrapped)%string
  end.

Inductive result (A : Type) : Type :=
| Ok (a : A)
| Err (e : error)
| Panic (msg : string).
Arguments Ok {A} a.
Arguments Err {A} e.
Arguments Panic {A} msg.

(** ** Strings and byte slices *)

(** [len] of a string and of a slice. *)
Definition len_string (s : string) : Z := Z.of_nat (String.length s).
Definition len {A : Type} (l : list A) : Z := Z.of_nat (List.length l).

(** [[]byte(s)]. *)
Definition bytes_of_string (s : string) : list byte := list_byte_of_string s.

(** [strings.Contains(s, sub)]. *)
Fixpoint Contains (s sub : string) : bool :=
  String.prefix sub s
  || match s with
     | EmptyString => false
     | String _ rest => Contains rest sub
     end.

(** [strings.Repeat] of a one-byte string. *)
Fixpoint Repeat (c : ascii) (count : nat) : string :=
  match count with
  | O => EmptyString
  | S count' => String c (Repeat c count')
  end.

(** ** Package [bson] (gopkg.in/mgo.v2/bson), the canonical codec

    An external library.  Only its interface is fixed here: [Marshal] of a
    value and [Unmarshal] of a document into a fresh zero value. *)
Module bson.

Class Codec (T : Type) : Type := {
  Marshal : T -> result (list byte);
  Unmarshal : list byte -> result T
}.

End bson.

(** ** Package [types]: the atomic counter *)
Module types.

Record Number : Type := {
  Value : Z;  (* int64 *)
  TTL : Z     (* uint64 *)
}.

Definition NewNumber (num : Z) : Number := {| Value := num; TTL := 0 |}.

(** [ToBSON]: [bson.Marshal(num)]. *)
Definition ToBSON `{bson.Codec Number} (num : Number) : result (list byte) :=
  bson.Marshal num.

(** *** [sync/atomic] on an [int64] cell

    Each primitive is one indivisible step on the cell, so its meaning is
    its sequential one. *)
Definition atomic_AddInt64 (delta : Z) : state Z Z :=
  old <- get ;;
  let new := int64 (old + delta) in
  put new ;;
  ret new.

Definition atomic_StoreInt64 (val : Z) : state Z unit := put val.

Definition atomic_LoadInt64 : state Z Z := get.

Definition atomic_CompareAndSwapInt64 (old new : Z) : state Z bool :=
  cur <- get ;;
  if cur =? old then put new ;; ret true else ret false.

(** [&num.Value]: an operation on the cell of the [Value] field, run on the
    receiver. *)
Definition at_Value {A : Type} (op : state Z A) : state Number A :=
  num <- get ;;
  let '(a, v) := runState op (Value num) in
  put {| Value := v; TTL := TTL num |} ;;
  ret a.

Definition Add (delta : Z) : state Number Z :=
  at_Value (atomic_AddInt64 delta).

Definition Sub (delta : Z) : state Number Z :=
  at_Value (atomic_AddInt64 (int64 (- delta))).

Definition Increment : state Number Z := Add 1.

Definition Decrement : state Number Z := Sub 1.

Definition Set_ (newValue : Z) : state Number unit :=
  at_Value (atomic_StoreInt64 newValue).

Definition Get : state Number Z := at_Value atomic_LoadInt64.

Definition CompareAndSwap (old new : Z) : state Number bool :=
  at_Value (atomic_CompareAndSwapInt64 old new).

End types.

(** ** Package [time]

    An instant is its Unix time in nanoseconds, an integer: [Add] is exact
    on it, and [UnixNano] reduces it to an [int64].  The world holds the
    wall clock: the instant that the n-th call of [time.Now()] returns. *)
Module time.

Definition Time : Type := Z.
Definition Duration : Type := Z.  (* int64 nanoseconds *)

Definition Second : Duration := 1000000000.

Record World : Type := {
  clock : nat -> Time;
  reads : nat
}.

Definition Now : state World Time :=
  w <- get ;;
  put {| clock := clock w; reads := S (reads w) |} ;;
  ret (clock w (reads w)).

(** [a * b] on durations. *)
Definition mul (a b : Duration) : Duration := int64 (a * b).

Definition Add (t : Time) (d : Duration) : Time := t + d.

Definition UnixNano (t : Time) : Z := int64 t.

End time.

(** ** Package [vfs]: the segment codec *)
Module vfs.

(** [type Kind int8] and its constants, numbered by [iota]. *)
Definition Kind : Type := Z.

Definition Set_ : Kind := 0.
Definition ZSet : Kind := 1.
Definition List : Kind := 2.
Definition Text : Kind := 3.
Definition Table : Kind := 4.
Definition Number : Kind := 5.
Definition Unknown : Kind := 6.

Record Segment : Type := {
  Tombstone : Z;        (* int8 *)
  Type_ : Kind;
  ExpiredAt : Z;        (* uint64 *)
  CreatedAt : Z;        (* uint64 *)
  KeySize : Z;          (* uint32 *)
  ValueSize : Z;        (* uint32 *)
  Key : list byte;
  Value : list byte
}.

(** [type Transformer]: the type of the package variable [transformer]. *)
Record Transformer : Type := {
  Encode : list byte -> result (list byte);
  Decode : list byte -> result (list byte)
}.

(** What the package uses and [src/] does not hold: the five struct types
    of package [types] besides [Number], the [bson] decoding of each, and
    the package variable [transformer].

    [Unmarshal_Set v] is [var set types.Set; bson.Unmarshal(v, &set.Set)]
    and [Unmarshal_ZSet] likewise on field [ZSet]; the other three are
    [bson.Unmarshal] into a zero value of the struct. *)
Class Collaborators : Type := {
  types_Set : Type;
  types_ZSet : Type;
  types_List : Type;
  types_Text : Type;
  types_Table : Type;
  bson_Number :: bson.Codec types.Number;
  Unmarshal_Set : list byte -> result types_Set;
  Unmarshal_ZSet : list byte -> result types_ZSet;
  Unmarshal_List : list byte -> result types_List;
  Unmarshal_Text : list byte -> result types_Text;
  Unmarshal_Table : list byte -> result types_Table;
  transformer : Transformer
}.

(** The dynamic type of an interface value. *)
Inductive GoType : Type :=
| type_Set | type_ZSet | type_List | type_Text | type_Table | type_Number
| type_pointer (elem : GoType)
| type_named (name : string).

(** The type as [%T] prints it. *)
Fixpoint type_name (t : GoType) : string :=
  match t with
  | type_Set => "types.Set"
  | type_ZSet => "types.ZSet"
  | type_List => "types.List"
  | type_Text => "types.Text"
  | type_Table => "types.Table"
  | type_Number => "types.Number"
  | type_pointer elem => ("*" ++ type_name elem)%string
  | type_named name => name
  end.

(** A value of interface type [Serializable]: nil, or a dynamic type with
    the outcome of the value's [ToBSON()]. *)
Inductive Serializable : Type :=
| nil_Serializable
| iface (dynamic : GoType) (tobson : result (list byte)).

Definition ToBSON (data : Serializable) : result (list byte) :=
  match data with
  | nil_Serializable =>
    Panic "invalid memory address or nil pointer dereference"
  | iface _ tobson => tobson
  end.

(** [%T] of an interface value. *)
Definition describe (data : Serializable) : string :=
  match data with
  | nil_Serializable => "<nil>"
  | iface dynamic _ => type_name dynamic
  end.

Section Codec.

Context `{Collaborators}.

(** A [types.Number] and a [*types.Number] as a [Serializable]. *)
Definition Number_value (num : types.Number) : Serializable :=
  iface type_Number (types.ToBSON num).

Definition Number_pointer (num : option types.Number) : Serializable :=
  iface (type_pointer type_Number)
    match num with
    | Some n => types.ToBSON n
    | None => Panic "value method types.Number.ToBSON called using nil *Number pointer"
    end.

Definition toKind (data : Serializable) : Kind * option error :=
  match data with
  | iface type_Set _ => (Set_, None)
  | iface type_ZSet _ => (ZSet, None)
  | iface type_List _ => (List, None)
  | iface type_Text _ => (Text, None)
  | iface type_Table _ => (Table, None)
  | iface type_Number _ => (Number, None)
  | iface (type_pointer type_Number) _ => (Number, None)
  | _ => (Unknown, Some (errors_New "unknown data type"))
  end.

Definition NewSegment (key : string) (data : Serializable) (ttl : Z)
  : state time.World (result Segment) :=
  match toKind data with
  | (_, Some err) => ret (Err (fmt_Errorf_w "unsupported data type: " err))
  | (kind, None) =>
    t <- time.Now ;;
    let timestamp := uint64 (time.UnixNano t) in
    expiredAt <-
      (if 0 <? ttl
       then t' <- time.Now ;;
            ret (uint64 (time.UnixNano
                   (time.Add t' (time.mul time.Second (int64 ttl)))))
       else ret (uint64 0)) ;;
    match ToBSON data with
    | Panic msg => ret (Panic msg)
    | Err err => ret (Err err)
    | Ok bytes =>
      match Encode transformer bytes with
      | Panic msg => ret (Panic msg)
      | Err err => ret (Err (fmt_Errorf_w "transformer encode: " err))
      | Ok encodedata =>
        ret (Ok {| Type_ := kind;
                   Tombstone := 0;
                   CreatedAt := timestamp;
                   ExpiredAt := expiredAt;
                   KeySize := uint32 (len_string key);
                   ValueSize := uint32 (len encodedata);
                   Key := bytes_of_string key;
                   Value := encodedata |})
      end
    end
  end.

Definition NewTombstoneSegment (key : string) : state time.World Segment :=
  t <- time.Now ;;
  let timestamp := uint64 (time.UnixNano t) in
  let expiredAt := uint64 0 in
  ret {| Type_ := Unknown;
         Tombstone := 1;
         CreatedAt := timestamp;
         ExpiredAt := expiredAt;
         KeySize := uint32 (len_string key);
         ValueSize := 0;
         Key := bytes_of_string key;
         Value := [] |}.

Definition IsTombstone (s : Segment) : bool := Tombstone s =? 1.

Definition Size (s : Segment) : Z :=
  uint32 (uint32 (uint32 (26 + KeySize s) + ValueSize s) + 4).

Definition ToSet (s : Segment) : result types_Set :=
  if negb (Type_ s =? Set_)
  then Err (fmt_Errorf "not support conversion to set type")
  else match Unmarshal_Set (Value s) with
       | Ok set => Ok set
       | Err err => Err err
       | Panic msg => Panic msg
       end.

Definition ToZSet (s : Segment) : result types_ZSet :=
  if negb (Type_ s =? ZSet)
  then Err (fmt_Errorf "not support conversion to zset type")
  else match Unmarshal_ZSet (Value s) with
       | Ok zset => Ok zset
       | Err err => Err err
       | Panic msg => Panic msg
       end.

Definition ToText (s : Segment) : result types_Text :=
  if negb (Type_ s =? Text)
  then Err (fmt_Errorf "not support conversion to text type")
  else match Unmarshal_Text (Value s) with
       | Ok text => Ok text
       | Err err => Err err
       | Panic msg => Panic msg
       end.

Definition ToList (s : Segment) : result types_List :=
  if negb (Type_ s =? List)
  then Err (fmt_Errorf "not support conversion to list type")
  else match Unmarshal_List (Value s) with
       | Ok list => Ok list
       | Err err => Err err
       | Panic msg => Panic msg
       end.

Definition ToTable (s : Segment) : result types_Table :=
  if negb (Type_ s =? Table)
  then Err (fmt_Errorf "not support conversion to table type")
  else match Unmarshal_Table (Value s) with
       | Ok table => Ok table
       | Err err => Err err
       | Panic msg => Panic msg
       end.

Definition ToNumber (s : Segment) : result types.Number :=
  if negb (Type_ s =? Number)
  then Err (fmt_Errorf "not support conversion to number type")
  else match bson.Unmarshal (Value s) with
       | Ok number => Ok number
       | Err err => Err err
       | Panic msg => Panic msg
       end.

Definition TTL (s : Segment) : state time.World Z :=
  t <- time.Now ;;
  let now := uint64 (time.UnixNano t) in
  if (0 <? ExpiredAt s) && (now <? ExpiredAt s)
  then ret (int64 (uint64 (ExpiredAt s - now)))
  else ret (-1).

End Codec.

End vfs.

#[global] Existing Instance vfs.bson_Number.

(** ** Byte order *)

Definition byte_of_Z (z : Z) : byte :=
  match Byte.of_N (Z.to_N (z mod 256)) with
  | Some b => b
  | None => x00
  end.

Definition Z_of_byte (b : byte) : Z := Z.of_N (Byte.to_N b).

(** The [width] low bytes of an integer, least significant first. *)
Fixpoint put_le (width : nat) (z : Z) : list byte :=
  match width with
  | O => []
  | S width' => byte_of_Z z :: put_le width' (z / 256)
  end.

Fixpoint get_le (bs : list byte) : Z :=
  match bs with
  | [] => 0
  | b :: rest => Z_of_byte b + 256 * get_le rest
  end.

Fixpoint bytes_eqb (a b : list byte) : bool :=
  match a, b with
  | [], [] => true
  | x :: a', y :: b' => Byte.eqb x y && bytes_eqb a' b'
  | _, _ => false
  end.

Definition slice (bs : list byte) (lo hi : nat) : list byte :=
  firstn (hi - lo) (skipn lo bs).

(** ** The wire form of a segment *)

Section Wire.

(** The checksum of a byte range, a 32-bit value. *)
Variable crc32 : list byte -> Z.

(** Modelled from the spec: the fixed header of the record layout table
    (tombstone 1, kind 1, expires-at 8, created-at 8, key size 4, value
    size 4); the function that writes a segment is not under [src/]. *)
Definition wire_header (s : vfs.Segment) : list byte :=
  put_le 1 (vfs.Tombstone s) ++ put_le 1 (vfs.Type_ s)
  ++ put_le 8 (vfs.ExpiredAt s) ++ put_le 8 (vfs.CreatedAt s)
  ++ put_le 4 (vfs.KeySize s) ++ put_le 4 (vfs.ValueSize s).

(** Modelled from the spec: the serialized record, the header, the key,
    the value and the 4-byte checksum over the bytes before it; the
    function that writes a segment is not under [src/]. *)
Definition serialize (s : vfs.Segment) : list byte :=
  let body := wire_header s ++ vfs.Key s ++ vfs.Value s in
  body ++ put_le 4 (crc32 body).

End Wire.

(** ** Concrete collaborators, for runs of the model *)
Module reference.

Definition cstring (s : string) : list byte := bytes_of_string s ++ [x00].

(** The BSON document of a [Number]: the length, then the elements
    [number] and [ttl] as 64-bit integers, then the terminator. *)
Definition Number_document (num : types.Number) : list byte :=
  let elements :=
    [x12] ++ cstring "number" ++ put_le 8 (types.Value num)
    ++ [x12] ++ cstring "ttl" ++ put_le 8 (types.TTL num) in
  put_le 4 (4 + len elements + 1) ++ elements ++ [x00].

Definition Marshal_Number (num : types.Number) : result (list byte) :=
  if types.TTL num <? 2 ^ 63
  then Ok (Number_document num)
  else Err (errors_New
    "BSON has no uint64 type, and value is too large to fit correctly in an int64").

Definition Unmarshal_Number (doc : list byte) : result types.Number :=
  if (len doc =? 34)
     && (get_le (slice doc 0 4) =? 34)
     && bytes_eqb (slice doc 4 12) ([x12] ++ cstring "number")
     && bytes_eqb (slice doc 20 25) ([x12] ++ cstring "ttl")
     && bytes_eqb (slice doc 33 34) [x00]
     && (get_le (slice doc 25 33) <? 2 ^ 63)
  then Ok {| types.Value := int64 (get_le (slice doc 12 20));
             types.TTL := get_le (slice doc 25 33) |}
  else Err (errors_New "Document is corrupted").

#[local] Instance Number_codec : bson.Codec types.Number := {
  bson.Marshal := Marshal_Number;
  bson.Unmarshal := Unmarshal_Number
}.

(** A transformer that changes nothing. *)
Definition plain : vfs.Transformer := {|
  vfs.Encode := fun bs => Ok bs;
  vfs.Decode := fun bs => Ok bs
|}.

(** A transformer that frames the payload with a one-byte header. *)
Definition framing : vfs.Transformer := {|
  vfs.Encode := fun bs => Ok (x01 :: bs);
  vfs.Decode := fun bs =>
    match bs with
    | x01 :: rest => Ok rest
    | _ => Err (errors_New "transformer: bad frame")
    end
|}.

(** A transformer whose encoder fails. *)
Definition failing : vfs.Transformer := {|
  vfs.Encode := fun _ => Err (errors_New "transformer: encoder failed");
  vfs.Decode := fun _ => Err (errors_New "transformer: decoder failed")
|}.

(** The other five struct types as raw documents. *)
Definition collaborators (tr : vfs.Transformer) : vfs.Collaborators := {|
  vfs.types_Set := list byte;
  vfs.types_ZSet := list byte;
  vfs.types_List := list byte;
  vfs.types_Text := list byte;
  vfs.types_Table := list byte;
  vfs.bson_Number := Number_codec;
  vfs.Unmarshal_Set := fun doc => Ok doc;
  vfs.Unmarshal_ZSet := fun doc => Ok doc;
  vfs.Unmarshal_List := fun doc => Ok doc;
  vfs.Unmarshal_Text := fun doc => Ok doc;
  vfs.Unmarshal_Table := fun doc => Ok doc;
  vfs.transformer := tr
|}.

(** A clock that advances by 250ns between two readings. *)
Definition world : time.World := {|
  time.clock := fun n => 1700000000000000000 + 250 * Z.of_nat n;
  time.reads := 0
|}.

Definition frozen (t : time.Time) : time.World := {|
  time.clock := fun _ => t;
  time.reads := 0
|}.

End reference.


(** ** Vocabulary of the statements *)

(** [strings.ToLower] on ASCII. *)
Definition lower_ascii (c : ascii) : ascii :=
  let n := nat_of_ascii c in
  if (65 <=? n)%nat && (n <=? 90)%nat then ascii_of_nat (n + 32) else c.

Fixpoint ToLower (s : string) : string :=
  match s with
  | EmptyString => EmptyString
  | String c rest => String (lower_ascii c) (ToLower rest)
  end.

(** The identifier of a kind constant in the source. *)
Definition Kind_identifier (k : vfs.Kind) : string :=
  if k =? vfs.Set_ then "Set"
  else if k =? vfs.ZSet then "ZSet"
  else if k =? vfs.List then "List"
  else if k =? vfs.Text then "Text"
  else if k =? vfs.Table then "Table"
  else if k =? vfs.Number then "Number"
  else if k =? vfs.Unknown then "Unknown"
  else "".

(** A message names a kind when it holds the kind's identifier, in any
    letter case. *)
Definition names_kind (msg : string) (k : vfs.Kind) : bool :=
  Contains (ToLower msg) (ToLower (Kind_identifier k)).

(** The six conversions of a segment, and the kind each one asks for. *)
Inductive conversion : Type :=
| to_Set | to_ZSet | to_List | to_Text | to_Table | to_Number.

Definition requested (c : conversion) : vfs.Kind :=
  match c with
  | to_Set => vfs.Set_
  | to_ZSet => vfs.ZSet
  | to_List => vfs.List
  | to_Text => vfs.Text
  | to_Table => vfs.Table
  | to_Number => vfs.Number
  end.

(** The outcome of a call with the returned value left out. *)
Inductive outcome : Type :=
| returned
| failed (err : error)
| panicked (msg : string).

Definition outcome_of {A : Type} (r : result A) : outcome :=
  match r with
  | Ok _ => returned
  | Err err => failed err
  | Panic msg => panicked msg
  end.

Definition convert `{vfs.Collaborators} (c : conversion) (s : vfs.Segment)
  : outcome :=
  match c with
  | to_Set => outcome_of (vfs.ToSet s)
  | to_ZSet => outcome_of (vfs.ToZSet s)
  | to_List => outcome_of (vfs.ToList s)
  | to_Text => outcome_of (vfs.ToText s)
  | to_Table => outcome_of (vfs.ToTable s)
  | to_Number => outcome_of (vfs.ToNumber s)
  end.

(** The closed set of value variants, as dynamic types, with their tags. *)
Definition value_variants : list (vfs.GoType * vfs.Kind) :=
  [ (vfs.type_Set, vfs.Set_); (vfs.type_ZSet, vfs.ZSet);
    (vfs.type_List, vfs.List); (vfs.type_Text, vfs.Text);
    (vfs.type_Table, vfs.Table); (vfs.type_Number, vfs.Number) ].

Definition GoType_eqb : vfs.GoType -> vfs.GoType -> bool :=
  fix eqb (a b : vfs.GoType) : bool :=
    match a, b with
    | vfs.type_Set, vfs.type_Set => true
    | vfs.type_ZSet, vfs.type_ZSet => true
    | vfs.type_List, vfs.type_List => true
    | vfs.type_Text, vfs.type_Text => true
    | vfs.type_Table, vfs.type_Table => true
    | vfs.type_Number, vfs.type_Number => true
    | vfs.type_pointer a', vfs.type_pointer b' => eqb a' b'
    | vfs.type_named n, vfs.type_named m => String.eqb n m
    | _, _ => false
    end.

(** A value of one of the six variants, not a pointer to one. *)
Definition is_value_variant (data : vfs.Serializable) : bool :=
  match data with
  | vfs.nil_Serializable => false
  | vfs.iface dynamic _ =>
    existsb (fun v => GoType_eqb dynamic (fst v)) value_variants
  end.

(** A [*types.Number]. *)
Definition is_Number_pointer (data : vfs.Serializable) : bool :=
  match data with
  | vfs.iface (vfs.type_pointer vfs.type_Number) _ => true
  | _ => false
  end.

(** ** Uses of the counter *)

(** [for i := 0; i < n; i++ { num.Increment() }]. *)
Fixpoint Increment_times (n : nat) : state types.Number unit :=
  match n with
  | O => ret tt
  | S n' => _ <- types.Increment ;; Increment_times n'
  end.

(** An optimistic update: read the counter, then swap in the sum if the
    counter still holds what was read. *)
Definition optimistic_Add (delta : Z) : state types.Number bool :=
  old <- types.Get ;;
  types.CompareAndSwap old (int64 (old + delta)).

(** The same update with an [Add] of another caller between the read and the
    swap. *)
Definition overtaken_Add (delta other : Z) : state types.Number bool :=
  old <- types.Get ;;
  _ <- types.Add other ;;
  types.CompareAndSwap old (int64 (old + delta)).

(** The message of a conversion that refuses a segment of another kind. *)
Definition refusal (c : conversion) : error :=
  fmt_Errorf ("not support conversion to "
              ++ ToLower (Kind_identifier (requested c)) ++ " type").

(** * Properties *)

(** ** Machine integers *)

Lemma int64_range (z : Z) : is_int64 (int64 z).
Proof.
  unfold is_int64, int64.
  pose proof (Z.mod_pos_bound (z + 2 ^ 63) (2 ^ 64) eq_refl). lia.
Qed.

Lemma int64_id (z : Z) : is_int64 z -> int64 z = z.
Proof.
  unfold is_int64, int64. intros Hz.
  rewrite Z.mod_small; lia.
Qed.

Lemma int64_add_int64_r (a b : Z) : int64 (a + int64 b) = int64 (a + b).
Proof.
  unfold int64.
  replace (a + ((b + 2 ^ 63) mod 2 ^ 64 - 2 ^ 63) + 2 ^ 63)
    with (a + (b + 2 ^ 63) mod 2 ^ 64) by ring.
  rewrite Zplus_mod_idemp_r. f_equal. f_equal. ring.
Qed.

Lemma uint64_int64 (z : Z) : uint64 (int64 z) = uint64 z.
Proof.
  unfold uint64, int64.
  rewrite <- Zminus_mod_idemp_l, Z.mod_mod by lia.
  rewrite Zminus_mod_idemp_l.
  replace (z + 2 ^ 63 - 2 ^ 63) with z by ring. reflexivity.
Qed.

Lemma uint64_id (z : Z) : is_uint64 z -> uint64 z = z.
Proof. unfold is_uint64, uint64. intros Hz. apply Z.mod_small. lia. Qed.

Lemma uint32_id (z : Z) : is_uint32 z -> uint32 z = z.
Proof. unfold is_uint32, uint32. intros Hz. apply Z.mod_small. lia. Qed.

Lemma uint32_range (z : Z) : is_uint32 (uint32 z).
Proof. unfold is_uint32, uint32. apply Z.mod_pos_bound. reflexivity. Qed.

Lemma uint64_range (z : Z) : is_uint64 (uint64 z).
Proof. unfold is_uint64, uint64. apply Z.mod_pos_bound. reflexivity. Qed.

(** ** The atomic counter *)

Example Add_wraps :
  runState (types.Add 1) {| types.Value := MaxInt64; types.TTL := 7 |}
  = (MinInt64, {| types.Value := MinInt64; types.TTL := 7 |}).
Proof. reflexivity. Qed.

Example Sub_wraps :
  runState (types.Sub 1) {| types.Value := MinInt64; types.TTL := 7 |}
  = (MaxInt64, {| types.Value := MaxInt64; types.TTL := 7 |}).
Proof. reflexivity. Qed.

Example Sub_MinInt64 :
  runState (types.Sub MinInt64) {| types.Value := -1; types.TTL := 0 |}
  = (MaxInt64, {| types.Value := MaxInt64; types.TTL := 0 |}).
Proof. reflexivity. Qed.

(** An operation through [&num.Value] acts on the [Value] cell alone. *)
Lemma at_Value_run {A : Type} (op : state Z A) (num : types.Number) :
  runState (types.at_Value op) num
  = (fst (runState op (types.Value num)),
     {| types.Value := snd (runState op (types.Value num));
        types.TTL := types.TTL num |}).
Proof.
  unfold types.at_Value. cbn.
  destruct (runState op (types.Value num)) as [a v]. reflexivity.
Qed.

Lemma Add_run (delta : Z) (num : types.Number) :
  runState (types.Add delta) num
  = (int64 (types.Value num + delta),
     {| types.Value := int64 (types.Value num + delta);
        types.TTL := types.TTL num |}).
Proof. unfold types.Add. rewrite at_Value_run. reflexivity. Qed.

Lemma Sub_run (delta : Z) (num : types.Number) :
  runState (types.Sub delta) num
  = (int64 (types.Value num - delta),
     {| types.Value := int64 (types.Value num - delta);
        types.TTL := types.TTL num |}).
Proof.
  unfold types.Sub. rewrite at_Value_run. cbn.
  rewrite int64_add_int64_r. reflexivity.
Qed.

(** C8: [Sub delta] returns the same value and leaves the same counter as
    [Add] of the negated delta, negated as an [int64] or as an integer;
    [Increment] is [Add 1] and [Decrement] is [Sub 1]; [Add] and [Sub] return
    the value they leave in the counter, which is the exact sum or difference
    wrapped to a two's-complement signed 64-bit integer. *)
Theorem Sub_is_Add_of_negation (num : types.Number) (delta : Z) :
  runState (types.Sub delta) num = runState (types.Add (int64 (- delta))) num
  /\ runState (types.Sub delta) num = runState (types.Add (- delta)) num
  /\ runState types.Increment num = runState (types.Add 1) num
  /\ runState types.Decrement num = runState (types.Sub 1) num
  /\ fst (runState (types.Add delta) num)
     = types.Value (snd (runState (types.Add delta) num))
  /\ fst (runState (types.Sub delta) num)
     = types.Value (snd (runState (types.Sub delta) num))
  /\ fst (runState (types.Add delta) num) = int64 (types.Value num + delta)
  /\ fst (runState (types.Sub delta) num) = int64 (types.Value num - delta)
  /\ fst (runState types.Increment num) = int64 (types.Value num + 1)
  /\ fst (runState types.Decrement num) = int64 (types.Value num - 1)
  /\ is_int64 (fst (runState (types.Add delta) num))
  /\ is_int64 (fst (runState (types.Sub delta) num)).
Proof.
  unfold types.Increment, types.Decrement.
  rewrite !Sub_run, !Add_run. cbn [fst snd types.Value].
  rewrite int64_add_int64_r.
  replace (types.Value num + - delta) with (types.Value num - delta) by ring.
  repeat split; try reflexivity; apply int64_range.
Qed.

(** C10: every operation of the counter leaves the [TTL] field as it was, and
    neither its result nor the [Value] it leaves depends on the [TTL] field:
    the operation is the atomic primitive run on the [Value] cell. *)
Theorem Number_operations_keep_TTL (num : types.Number) (delta old new : Z) :
  let frame {A : Type} (method : state types.Number A) (primitive : state Z A) :=
    types.TTL (snd (runState method num)) = types.TTL num
    /\ fst (runState method num) = fst (runState primitive (types.Value num))
    /\ types.Value (snd (runState method num))
       = snd (runState primitive (types.Value num)) in
  frame (types.Add delta) (types.atomic_AddInt64 delta)
  /\ frame (types.Sub delta) (types.atomic_AddInt64 (int64 (- delta)))
  /\ frame types.Increment (types.atomic_AddInt64 1)
  /\ frame types.Decrement (types.atomic_AddInt64 (int64 (- (1))))
  /\ frame (types.Set_ new) (types.atomic_StoreInt64 new)
  /\ frame types.Get types.atomic_LoadInt64
  /\ frame (types.CompareAndSwap old new)
       (types.atomic_CompareAndSwapInt64 old new).
Proof.
  cbv zeta.
  unfold types.Increment, types.Decrement, types.Add, types.Sub, types.Set_,
    types.Get, types.CompareAndSwap.
  rewrite !at_Value_run. cbn [fst snd types.TTL types.Value].
  repeat split; reflexivity.
Qed.

(** ** Lengths and conversions *)

Lemma len_bytes_of_string (s : string) : len (bytes_of_string s) = len_string s.
Proof.
  unfold len, len_string, bytes_of_string, list_byte_of_string.
  rewrite length_map. f_equal.
  induction s as [|c s IH]; cbn; [reflexivity | now rewrite IH].
Qed.

Lemma length_Repeat (c : ascii) (count : nat) :
  String.length (Repeat c count) = count.
Proof. induction count as [|n IH]; cbn; [reflexivity | now rewrite IH]. Qed.

Lemma uint64_add_int64_r (a b : Z) : uint64 (a + int64 b) = uint64 (a + b).
Proof.
  unfold uint64. rewrite <- Zplus_mod_idemp_r.
  fold (uint64 (int64 b)). rewrite uint64_int64. unfold uint64.
  rewrite Zplus_mod_idemp_r. reflexivity.
Qed.

Lemma uint64_mul_int64_r (a b : Z) : uint64 (a * int64 b) = uint64 (a * b).
Proof.
  unfold uint64. rewrite <- Zmult_mod_idemp_r.
  fold (uint64 (int64 b)). rewrite uint64_int64. unfold uint64.
  rewrite Zmult_mod_idemp_r. reflexivity.
Qed.

(** The expiry instant that [NewSegment] computes from a clock reading, as a
    [uint64]: the reading plus the seconds in nanoseconds, modulo 2^64. *)
Lemma expiredAt_value (t ttl : Z) :
  uint64 (time.UnixNano (time.Add t (time.mul time.Second (int64 ttl))))
  = uint64 (t + ttl * 1000000000).
Proof.
  unfold time.UnixNano, time.Add, time.mul, time.Second.
  rewrite uint64_int64, uint64_add_int64_r.
  unfold uint64. rewrite <- Zplus_mod_idemp_r.
  fold (uint64 (1000000000 * int64 ttl)). rewrite uint64_mul_int64_r.
  unfold uint64. rewrite Zplus_mod_idemp_r. f_equal. ring.
Qed.

(** ** The segment codec *)

Section SegmentProperties.

Context `{C : vfs.Collaborators}.

(** What a successful [NewSegment] went through and returned. *)
Lemma NewSegment_Ok_inv (key : string) (data : vfs.Serializable) (ttl : Z)
    (w w' : time.World) (seg : vfs.Segment) :
  runState (vfs.NewSegment key data ttl) w = (Ok seg, w') ->
  exists bytes,
    vfs.toKind data = (vfs.Type_ seg, None)
    /\ vfs.ToBSON data = Ok bytes
    /\ vfs.Encode vfs.transformer bytes = Ok (vfs.Value seg)
    /\ vfs.Tombstone seg = 0
    /\ vfs.CreatedAt seg = uint64 (time.clock w (time.reads w))
    /\ vfs.ExpiredAt seg
       = (if 0 <? ttl
          then uint64 (time.clock w (S (time.reads w)) + ttl * 1000000000)
          else 0)
    /\ vfs.KeySize seg = uint32 (len_string key)
    /\ vfs.ValueSize seg = uint32 (len (vfs.Value seg))
    /\ vfs.Key seg = bytes_of_string key.
Proof.
  unfold vfs.NewSegment.
  destruct (vfs.toKind data) as [kind [err|]] eqn:Hkind; cbn;
    [intros [=] |].
  destruct (0 <? ttl) eqn:Httl; cbn;
    (destruct (vfs.ToBSON data) as [bytes|err|msg]; cbn; [| intros [=] ..]);
    (destruct (vfs.Encode vfs.transformer bytes) as [enc|err|msg] eqn:Henc;
      cbn; [| intros [=] ..]);
    intros [= <- <-]; cbn; exists bytes;
    rewrite ?expiredAt_value;
    unfold time.UnixNano; rewrite uint64_int64;
    repeat split; reflexivity || assumption.
Qed.

(** [NewSegment] succeeds when the value's type has a kind and both
    encoders succeed. *)
Lemma NewSegment_Ok (key : string) (data : vfs.Serializable) (ttl : Z)
    (w : time.World) (kind : vfs.Kind) (bytes encodedata : list byte) :
  vfs.toKind data = (kind, None) ->
  vfs.ToBSON data = Ok bytes ->
  vfs.Encode vfs.transformer bytes = Ok encodedata ->
  exists seg,
    fst (runState (vfs.NewSegment key data ttl) w) = Ok seg
    /\ vfs.Type_ seg = kind
    /\ vfs.Value seg = encodedata.
Proof.
  intros Hkind Hbson Henc. unfold vfs.NewSegment. rewrite Hkind. cbn.
  destruct (0 <? ttl); cbn; rewrite Hbson; cbn; rewrite Henc; cbn;
    eexists; repeat split; reflexivity.
Qed.

Lemma NewSegment_fst_inv (key : string) (data : vfs.Serializable) (ttl : Z)
    (w : time.World) (seg : vfs.Segment) :
  fst (runState (vfs.NewSegment key data ttl) w) = Ok seg ->
  vfs.Tombstone seg = 0
  /\ vfs.CreatedAt seg = uint64 (time.clock w (time.reads w))
  /\ vfs.ExpiredAt seg
     = (if 0 <? ttl
        then uint64 (time.clock w (S (time.reads w)) + ttl * 1000000000)
        else 0)
  /\ vfs.KeySize seg = uint32 (len_string key)
  /\ vfs.ValueSize seg = uint32 (len (vfs.Value seg))
  /\ vfs.Key seg = bytes_of_string key.
Proof.
  destruct (runState (vfs.NewSegment key data ttl) w) as [r w'] eqn:Hrun.
  cbn. intros ->.
  apply NewSegment_Ok_inv in Hrun as (bytes & _ & _ & _ & Hrest).
  exact Hrest.
Qed.

End SegmentProperties.

(** ** The kind of a value *)

Section KindRegistry.

Context `{C : vfs.Collaborators}.

Example unsupported_message :
  Error (fmt_Errorf_w "unsupported data type: "
           (errors_New "unknown data type"))
  = "unsupported data type: unknown data type"%string.
Proof. reflexivity. Qed.

Lemma toKind_value_variants :
  Forall (fun v => forall tobson,
            vfs.toKind (vfs.iface (fst v) tobson) = (snd v, None))
         value_variants.
Proof. repeat constructor. Qed.

Lemma toKind_rejects (data : vfs.Serializable) :
  is_value_variant data = false ->
  is_Number_pointer data = false ->
  vfs.toKind data = (vfs.Unknown, Some (errors_New "unknown data type")).
Proof.
  intros Hvalue Hpointer.
  destruct data as [|dynamic tobson]; [reflexivity |].
  destruct dynamic as [ | | | | | | elem | name];
    try discriminate Hvalue; try reflexivity.
  destruct elem; try reflexivity. discriminate Hpointer.
Qed.

Lemma NewSegment_unsupported (key : string) (data : vfs.Serializable)
    (ttl : Z) (w : time.World) (err : error) :
  snd (vfs.toKind data) = Some err ->
  runState (vfs.NewSegment key data ttl) w
  = (Err (fmt_Errorf_w "unsupported data type: " err), w).
Proof.
  unfold vfs.NewSegment.
  destruct (vfs.toKind data) as [kind [err'|]]; cbn; [| discriminate].
  intros [= ->]. reflexivity.
Qed.

(** C3, amended: [toKind] maps a value of each of the six variants to its
    tag with no error; every input that is neither such a value nor a
    pointer to a [Number] gets [Unknown] and the fixed error "unknown data
    type", the same for every rejected input, and [NewSegment] returns it
    wrapped as "unsupported data type: unknown data type" without reading
    the clock. *)
Theorem toKind_total_on_variants_rejects_rest (data : vfs.Serializable)
    (Hvalue : is_value_variant data = false)
    (Hpointer : is_Number_pointer data = false) :
  Forall (fun v => forall tobson,
            vfs.toKind (vfs.iface (fst v) tobson) = (snd v, None))
         value_variants
  /\ vfs.toKind data = (vfs.Unknown, Some (errors_New "unknown data type"))
  /\ (forall key ttl w,
        runState (vfs.NewSegment key data ttl) w
        = (Err (fmt_Errorf_w "unsupported data type: "
                  (errors_New "unknown data type")), w)).
Proof.
  split; [apply toKind_value_variants |].
  pose proof (toKind_rejects data Hvalue Hpointer) as Hrej.
  split; [exact Hrej |].
  intros key ttl w. apply NewSegment_unsupported. now rewrite Hrej.
Qed.

(** C9: [toKind] maps a [Number] value and a pointer to a [Number], nil or
    not, to the [Number] tag; of the other five variants the value has its
    tag and the pointer has none: it gets the error "unknown data type" and
    [NewSegment] fails on it. *)
Theorem toKind_accepts_only_Number_pointer (tobson : result (list byte))
    (num : types.Number) (key : string) (ttl : Z) (w : time.World) :
  vfs.toKind (vfs.iface vfs.type_Number tobson) = (vfs.Number, None)
  /\ vfs.toKind (vfs.iface (vfs.type_pointer vfs.type_Number) tobson)
     = (vfs.Number, None)
  /\ vfs.toKind (vfs.Number_value num) = (vfs.Number, None)
  /\ vfs.toKind (vfs.Number_pointer (Some num)) = (vfs.Number, None)
  /\ vfs.toKind (vfs.Number_pointer None) = (vfs.Number, None)
  /\ Forall
       (fun v =>
          vfs.toKind (vfs.iface (fst v) tobson) = (snd v, None)
          /\ vfs.toKind (vfs.iface (vfs.type_pointer (fst v)) tobson)
             = (vfs.Unknown, Some (errors_New "unknown data type"))
          /\ runState
               (vfs.NewSegment key
                  (vfs.iface (vfs.type_pointer (fst v)) tobson) ttl) w
             = (Err (fmt_Errorf_w "unsupported data type: "
                       (errors_New "unknown data type")), w))
       [ (vfs.type_Set, vfs.Set_); (vfs.type_ZSet, vfs.ZSet);
         (vfs.type_List, vfs.List); (vfs.type_Text, vfs.Text);
         (vfs.type_Table, vfs.Table) ].
Proof.
  repeat split; try reflexivity.
  repeat constructor.
Qed.

End KindRegistry.

(** C3, as stated, fails: the error for a rejected pointer to a [Set] is the
    fixed text "unknown data type", also after [NewSegment] wrapped it; it
    does not hold the type of the rejected value, and a value of an unrelated
    type gets the very same error.  Besides, a pointer to a [Number], which
    is not a value of the six variants, is not rejected. *)
Lemma toKind_error_is_fixed_text :
  let data := vfs.iface (vfs.type_pointer vfs.type_Set) (Ok []) in
  let other := vfs.iface (vfs.type_named "main.Blob") (Ok [x2a]) in
  is_value_variant data = false
  /\ vfs.describe data = "*types.Set"%string
  /\ vfs.toKind data = (vfs.Unknown, Some (errors_New "unknown data type"))
  /\ Contains (Error (errors_New "unknown data type")) (vfs.describe data)
     = false
  /\ Contains (Error (errors_New "unknown data type")) "Set" = false
  /\ fst (runState
            (@vfs.NewSegment (reference.collaborators reference.plain)
               "user:1" data 0) reference.world)
     = Err (fmt_Errorf_w "unsupported data type: "
              (errors_New "unknown data type"))
  /\ Contains "unsupported data type: unknown data type" (vfs.describe data)
     = false
  /\ vfs.toKind other = vfs.toKind data
  /\ is_value_variant (vfs.iface (vfs.type_pointer vfs.type_Number) (Ok []))
     = false
  /\ vfs.toKind (vfs.iface (vfs.type_pointer vfs.type_Number) (Ok []))
     = (vfs.Number, None).
Proof. cbv zeta. repeat split; reflexivity. Qed.

(** The amended C3 at a pointer to a [Set]. *)
Lemma toKind_total_on_variants_rejects_rest_witness :
  let data := vfs.iface (vfs.type_pointer vfs.type_Set) (Ok []) in
  is_value_variant data = false
  /\ is_Number_pointer data = false
  /\ vfs.toKind data = (vfs.Unknown, Some (errors_New "unknown data type")).
Proof.
  cbv zeta. split; [reflexivity |]. split; [reflexivity |].
  exact (proj1 (proj2
    (@toKind_total_on_variants_rejects_rest
       (reference.collaborators reference.plain)
       (vfs.iface (vfs.type_pointer vfs.type_Set) (Ok []))
       eq_refl eq_refl))).
Defined.

(** ** Conversions of a segment *)

Section Conversions.

Context `{C : vfs.Collaborators}.

(** The message of a refused conversion, by the word for the kind. *)
Example refusal_words :
  map (fun c => ToLower (Kind_identifier (requested c)))
      [to_Set; to_ZSet; to_List; to_Text; to_Table; to_Number]
  = ["set"; "zset"; "list"; "text"; "table"; "number"]%string.
Proof. reflexivity. Qed.

Lemma conversion_refused (c : conversion) (s : vfs.Segment) :
  vfs.Type_ s <> requested c ->
  convert c s
  = failed (fmt_Errorf ("not support conversion to "
                        ++ ToLower (Kind_identifier (requested c))
                        ++ " type")).
Proof.
  intros Hkind.
  destruct c; cbn in Hkind |- *;
    unfold vfs.ToSet, vfs.ToZSet, vfs.ToList, vfs.ToText, vfs.ToTable,
      vfs.ToNumber;
    match goal with
    | |- context [?a =? ?b] =>
      destruct (Z.eqb_spec a b) as [Heq | Hne]; [contradiction | reflexivity]
    end.
Qed.

(** C2, amended: when the kind of a segment is not the requested one, each
    of the six conversions returns no value and fails with the error "not
    support conversion to K type", K the word for the requested kind; the
    message names the requested kind and is the same whatever the segment's
    kind is.  So [ToText] fails on every segment built from a [Number]. *)
Theorem conversion_of_other_kind_fails (c : conversion) (s : vfs.Segment)
    (Hkind : vfs.Type_ s <> requested c) :
  convert c s
  = failed (fmt_Errorf ("not support conversion to "
                        ++ ToLower (Kind_identifier (requested c))
                        ++ " type"))
  /\ names_kind ("not support conversion to "
                 ++ ToLower (Kind_identifier (requested c)) ++ " type")
                (requested c) = true
  /\ (forall s', vfs.Type_ s' <> requested c -> convert c s' = convert c s)
  /\ (forall key num ttl w w' seg,
        runState (vfs.NewSegment key (vfs.Number_value num) ttl) w
        = (Ok seg, w') ->
        vfs.ToText seg
        = Err (fmt_Errorf "not support conversion to text type")).
Proof.
  split; [now apply conversion_refused |].
  split; [destruct c; reflexivity |].
  split.
  - intros s' Hkind'. now rewrite !conversion_refused.
  - intros key num ttl w w' seg Hrun.
    apply NewSegment_Ok_inv in Hrun as (bytes & Hk & _).
    cbn in Hk. injection Hk as Hk.
    unfold vfs.ToText. rewrite <- Hk. reflexivity.
Qed.

End Conversions.

(** C2, as stated, fails: [ToText] on the segment built from the [Number] 42
    fails with a message that names the requested kind, text, and not the
    kind of the segment, number. *)
Lemma ToText_error_omits_segment_kind :
  exists seg : vfs.Segment,
    fst (runState
           (@vfs.NewSegment (reference.collaborators reference.plain)
              "user:1"
              (@vfs.Number_value (reference.collaborators reference.plain)
                 {| types.Value := 42; types.TTL := 0 |}) 0)
           reference.world) = Ok seg
    /\ vfs.Type_ seg = vfs.Number
    /\ vfs.Type_ seg <> requested to_Text
    /\ @vfs.ToText (reference.collaborators reference.plain) seg
       = Err (fmt_Errorf "not support conversion to text type")
    /\ names_kind (Error (fmt_Errorf "not support conversion to text type"))
         vfs.Text = true
    /\ names_kind (Error (fmt_Errorf "not support conversion to text type"))
         (vfs.Type_ seg) = false
    /\ Contains (Error (fmt_Errorf "not support conversion to text type"))
         "5" = false.
Proof.
  eexists. split; [vm_compute; reflexivity |].
  repeat split; try reflexivity. discriminate.
Qed.

(** The amended C2 at [ToText] of a segment of kind [Number]. *)
Lemma conversion_of_other_kind_fails_witness :
  let s := {| vfs.Tombstone := 0; vfs.Type_ := vfs.Number;
              vfs.ExpiredAt := 0; vfs.CreatedAt := 1700000000000000000;
              vfs.KeySize := 1; vfs.ValueSize := 0;
              vfs.Key := [x6b]; vfs.Value := [] |} in
  vfs.Type_ s <> requested to_Text
  /\ @convert (reference.collaborators reference.plain) to_Text s
     = failed (fmt_Errorf "not support conversion to text type").
Proof.
  cbv zeta. split; [discriminate |].
  refine (proj1 (@conversion_of_other_kind_fails
    (reference.collaborators reference.plain) to_Text _ _)).
  discriminate.
Defined.

(** ** Building a segment and converting it back *)

Section RoundTrip.

Context `{C : vfs.Collaborators}.

Lemma result_eta {A : Type} (r : result A) :
  match r with
  | Ok a => Ok a
  | Err err => Err err
  | Panic msg => Panic msg
  end = r.
Proof. destruct r; reflexivity. Qed.

(** On a segment of its kind, a conversion is the canonical decoder applied
    to the stored value as it is; the transformer is not run. *)
Lemma conversion_decodes_Value (s : vfs.Segment) :
  (vfs.Type_ s = vfs.Set_ -> vfs.ToSet s = vfs.Unmarshal_Set (vfs.Value s))
  /\ (vfs.Type_ s = vfs.ZSet ->
      vfs.ToZSet s = vfs.Unmarshal_ZSet (vfs.Value s))
  /\ (vfs.Type_ s = vfs.List ->
      vfs.ToList s = vfs.Unmarshal_List (vfs.Value s))
  /\ (vfs.Type_ s = vfs.Text ->
      vfs.ToText s = vfs.Unmarshal_Text (vfs.Value s))
  /\ (vfs.Type_ s = vfs.Table ->
      vfs.ToTable s = vfs.Unmarshal_Table (vfs.Value s))
  /\ (vfs.Type_ s = vfs.Number ->
      vfs.ToNumber s = bson.Unmarshal (vfs.Value s)).
Proof.
  unfold vfs.ToSet, vfs.ToZSet, vfs.ToList, vfs.ToText, vfs.ToTable,
    vfs.ToNumber.
  repeat split; intros ->; cbn; apply result_eta.
Qed.

(** C1, amended: when the canonical encoder and the transformer succeed,
    [NewSegment] of a [Number] with any key succeeds with kind [Number],
    tombstone 0, the key size [len(key)] modulo 2^32, the transformer's output
    as value and, for ttl 0, no expiry.  A conversion of a fresh segment of
    its kind applies the canonical decoder to the transformer's output and
    does not undo the transformer: [ToNumber] returns the original number,
    whose [Get] is its value, when the transformer left the canonical bytes
    as they were and the canonical decoder inverts the encoder on them. *)
Theorem NewSegment_ToNumber_round_trip (key : string) (num : types.Number)
    (ttl : Z) (w : time.World) (canonical payload : list byte)
    (Hcanonical : bson.Marshal num = Ok canonical)
    (Hpayload : vfs.Encode vfs.transformer canonical = Ok payload) :
  exists seg : vfs.Segment,
    fst (runState (vfs.NewSegment key (vfs.Number_value num) ttl) w) = Ok seg
    /\ vfs.Type_ seg = vfs.Number
    /\ vfs.Tombstone seg = 0
    /\ (ttl = 0 -> vfs.ExpiredAt seg = 0)
    /\ vfs.KeySize seg = uint32 (len_string key)
    /\ (len_string key < 2 ^ 32 -> vfs.KeySize seg = len_string key)
    /\ vfs.Value seg = payload
    /\ vfs.ValueSize seg = uint32 (len payload)
    /\ vfs.ToNumber seg = bson.Unmarshal payload
    /\ (payload = canonical ->
        bson.Unmarshal canonical = Ok num ->
        vfs.ToNumber seg = Ok num
        /\ fst (runState types.Get num) = types.Value num)
    /\ (forall key' data ttl' w0 w1 seg',
          runState (vfs.NewSegment key' data ttl') w0 = (Ok seg', w1) ->
          exists canonical',
            vfs.ToBSON data = Ok canonical'
            /\ vfs.Encode vfs.transformer canonical' = Ok (vfs.Value seg')
            /\ (vfs.Type_ seg' = vfs.Set_ ->
                vfs.ToSet seg' = vfs.Unmarshal_Set (vfs.Value seg'))
            /\ (vfs.Type_ seg' = vfs.ZSet ->
                vfs.ToZSet seg' = vfs.Unmarshal_ZSet (vfs.Value seg'))
            /\ (vfs.Type_ seg' = vfs.List ->
                vfs.ToList seg' = vfs.Unmarshal_List (vfs.Value seg'))
            /\ (vfs.Type_ seg' = vfs.Text ->
                vfs.ToText seg' = vfs.Unmarshal_Text (vfs.Value seg'))
            /\ (vfs.Type_ seg' = vfs.Table ->
                vfs.ToTable seg' = vfs.Unmarshal_Table (vfs.Value seg'))
            /\ (vfs.Type_ seg' = vfs.Number ->
                vfs.ToNumber seg' = bson.Unmarshal (vfs.Value seg'))).
Proof.
  destruct (runState (vfs.NewSegment key (vfs.Number_value num) ttl) w)
    as [r w'] eqn:Hrun.
  destruct (NewSegment_Ok key (vfs.Number_value num) ttl w vfs.Number
              canonical payload eq_refl Hcanonical Hpayload)
    as (seg & Hseg & Hkind & Hvalue).
  rewrite Hrun in Hseg. cbn in Hseg. subst r.
  pose proof (NewSegment_Ok_inv _ _ _ _ _ _ Hrun)
    as (bytes & _ & _ & _ & Htomb & _ & Hexp & Hksize & Hvsize & _).
  pose proof (conversion_decodes_Value seg) as (_ & _ & _ & _ & _ & HtoNumber).
  exists seg. cbn [fst].
  split; [reflexivity |]. split; [exact Hkind |]. split; [exact Htomb |].
  split.
  { intros ->. exact Hexp. }
  split; [exact Hksize |].
  split.
  { intros Hlen. rewrite Hksize. apply uint32_id.
    unfold is_uint32, len_string in *. lia. }
  split; [exact Hvalue |].
  split; [now rewrite <- Hvalue |].
  split; [rewrite <- Hvalue; now apply HtoNumber |].
  split.
  { intros -> Hdecode. split; [| reflexivity].
    rewrite (HtoNumber Hkind), Hvalue. exact Hdecode. }
  intros key' data ttl' w0 w1 seg' Hrun'.
  apply NewSegment_Ok_inv in Hrun' as (bytes' & _ & Hbson & Henc & _).
  exists bytes'. split; [exact Hbson |]. split; [exact Henc |].
  apply conversion_decodes_Value.
Qed.

End RoundTrip.

(** C1, as stated, fails: under a transformer that frames the payload with a
    header byte, and whose decoder undoes its encoder, [ToNumber] on the
    fresh segment of the [Number] 42 decodes the framed bytes as they are and
    fails; it returns no number.  Besides, [NewSegment] fails when the
    transformer's encoder does, and a key of 2^32 bytes gets key size 0. *)
Lemma ToNumber_does_not_undo_transformer :
  let num := {| types.Value := 42; types.TTL := 0 |} in
  (let env := reference.collaborators reference.framing in
   exists (seg : vfs.Segment) (canonical : list byte),
     fst (runState
            (@vfs.NewSegment env "user:1" (@vfs.Number_value env num) 0)
            reference.world) = Ok seg
     /\ vfs.Type_ seg = vfs.Number
     /\ @bson.Marshal _ (@vfs.bson_Number env) num = Ok canonical
     /\ @bson.Unmarshal _ (@vfs.bson_Number env) canonical = Ok num
     /\ vfs.Encode (@vfs.transformer env) canonical = Ok (vfs.Value seg)
     /\ vfs.Decode (@vfs.transformer env) (vfs.Value seg) = Ok canonical
     /\ @vfs.ToNumber env seg = Err (errors_New "Document is corrupted"))
  /\ (let env := reference.collaborators reference.failing in
      fst (runState
             (@vfs.NewSegment env "user:1" (@vfs.Number_value env num) 0)
             reference.world)
      = Err (fmt_Errorf_w "transformer encode: "
               (errors_New "transformer: encoder failed")))
  /\ (let env := reference.collaborators reference.plain in
      let key := Repeat "a" (Z.to_nat 4294967296) in
      exists seg : vfs.Segment,
        fst (runState
               (@vfs.NewSegment env key (@vfs.Number_value env num) 0)
               reference.world) = Ok seg
        /\ len_string key = 4294967296
        /\ vfs.KeySize seg = 0).
Proof.
  cbv zeta. split; [| split].
  - eexists. eexists.
    split; [vm_compute; reflexivity |].
    repeat split; vm_compute; reflexivity.
  - vm_compute. reflexivity.
  - destruct (@NewSegment_Ok (reference.collaborators reference.plain)
                (Repeat "a" (Z.to_nat 4294967296))
                (@vfs.Number_value (reference.collaborators reference.plain)
                   {| types.Value := 42; types.TTL := 0 |})
                0 reference.world vfs.Number
                (reference.Number_document
                   {| types.Value := 42; types.TTL := 0 |})
                (reference.Number_document
                   {| types.Value := 42; types.TTL := 0 |})
                eq_refl eq_refl eq_refl)
      as (seg & Hrun & _).
    exists seg. split; [exact Hrun |].
    apply NewSegment_fst_inv in Hrun as (_ & _ & _ & Hksize & _).
    rewrite Hksize. unfold len_string.
    rewrite length_Repeat, Z2Nat.id by discriminate.
    split; reflexivity.
Qed.

(** The amended C1 at key "user:1" and the [Number] 42, under the
    transformer that changes nothing. *)
Lemma NewSegment_ToNumber_round_trip_witness :
  let env := reference.collaborators reference.plain in
  let num := {| types.Value := 42; types.TTL := 0 |} in
  @bson.Marshal _ (@vfs.bson_Number env) num
  = Ok (reference.Number_document num)
  /\ vfs.Encode (@vfs.transformer env) (reference.Number_document num)
     = Ok (reference.Number_document num)
  /\ exists seg : vfs.Segment,
       fst (runState
              (@vfs.NewSegment env "user:1" (@vfs.Number_value env num) 0)
              reference.world) = Ok seg
       /\ vfs.Type_ seg = vfs.Number
       /\ vfs.KeySize seg = 6
       /\ @vfs.ToNumber env seg = Ok num.
Proof.
  cbv zeta. split; [reflexivity |]. split; [reflexivity |].
  destruct (@NewSegment_ToNumber_round_trip
              (reference.collaborators reference.plain) "user:1"
              {| types.Value := 42; types.TTL := 0 |} 0 reference.world
              (reference.Number_document {| types.Value := 42; types.TTL := 0 |})
              (reference.Number_document {| types.Value := 42; types.TTL := 0 |})
              eq_refl eq_refl)
    as (seg & Hrun & Hkind & _ & _ & Hksize & _ & _ & _ & _ & Hback & _).
  exists seg. split; [exact Hrun |]. split; [exact Hkind |].
  split; [exact Hksize |].
  apply Hback; reflexivity.
Defined.

(** ** Timestamps of a fresh segment *)

Section Timestamps.

Context `{C : vfs.Collaborators}.

(** C4, amended: on success [NewSegment] sets the creation time to the
    clock reading it takes first, as a [uint64].  For ttl 0 the expiry is 0.
    For ttl > 0 the expiry is a second, later clock reading plus ttl * 10^9,
    modulo 2^64; it is the creation time plus ttl * 10^9 when the clock shows
    the same instant at both readings and the sum is below 2^64, and at
    least that when the clock has not gone back in between. *)
Theorem NewSegment_timestamps (key : string) (data : vfs.Serializable)
    (ttl : Z) (w : time.World) (seg : vfs.Segment)
    (Hrun : fst (runState (vfs.NewSegment key data ttl) w) = Ok seg) :
  let first := time.clock w (time.reads w) in
  let second := time.clock w (S (time.reads w)) in
  vfs.CreatedAt seg = uint64 first
  /\ (ttl = 0 -> vfs.ExpiredAt seg = 0)
  /\ (0 < ttl -> vfs.ExpiredAt seg = uint64 (second + ttl * 1000000000))
  /\ (0 < ttl -> 0 <= first -> second = first ->
      first + ttl * 1000000000 < 2 ^ 64 ->
      vfs.ExpiredAt seg = vfs.CreatedAt seg + ttl * 1000000000)
  /\ (0 < ttl -> 0 <= first <= second ->
      second + ttl * 1000000000 < 2 ^ 64 ->
      vfs.CreatedAt seg + ttl * 1000000000 <= vfs.ExpiredAt seg
      /\ vfs.CreatedAt seg < vfs.ExpiredAt seg).
Proof.
  cbv zeta.
  apply NewSegment_fst_inv in Hrun as (_ & Hcreated & Hexpired & _).
  split; [exact Hcreated |].
  split; [intros ->; exact Hexpired |].
  assert (Hpos : 0 < ttl ->
                 vfs.ExpiredAt seg
                 = uint64 (time.clock w (S (time.reads w))
                           + ttl * 1000000000)).
  { intros Httl. rewrite Hexpired.
    destruct (Z.ltb_spec 0 ttl); [reflexivity | lia]. }
  split; [exact Hpos |].
  split.
  - intros Httl Hfirst Hsame Hfit.
    rewrite (Hpos Httl), Hcreated, Hsame.
    rewrite !uint64_id; unfold is_uint64; lia.
  - intros Httl Hmono Hfit.
    rewrite (Hpos Httl), Hcreated.
    rewrite !uint64_id; unfold is_uint64; lia.
Qed.

End Timestamps.

(** C4, as stated, fails: with a clock that shows 1700000000000000000 at the
    first reading and 250ns more at the second, [NewSegment] with ttl 1 sets
    the expiry 250ns after the creation time plus one second.  Besides, with
    a ttl of 18446744073 seconds the nanoseconds wrap around, and the expiry
    is before the creation time. *)
Lemma ExpiredAt_is_from_second_reading :
  let env := reference.collaborators reference.plain in
  let num := {| types.Value := 42; types.TTL := 0 |} in
  (exists seg : vfs.Segment,
     fst (runState
            (@vfs.NewSegment env "user:1" (@vfs.Number_value env num) 1)
            reference.world) = Ok seg
     /\ vfs.CreatedAt seg = 1700000000000000000
     /\ vfs.ExpiredAt seg = 1700000001000000250
     /\ vfs.ExpiredAt seg <> vfs.CreatedAt seg + 1 * 1000000000)
  /\ (exists seg : vfs.Segment,
        fst (runState
               (@vfs.NewSegment env "user:1" (@vfs.Number_value env num)
                  18446744073)
               reference.world) = Ok seg
        /\ vfs.CreatedAt seg = 1700000000000000000
        /\ vfs.ExpiredAt seg = 1699999999290448634
        /\ vfs.ExpiredAt seg
           <> vfs.CreatedAt seg + 18446744073 * 1000000000).
Proof.
  cbv zeta. split.
  - eexists. split; [vm_compute; reflexivity |].
    repeat split. discriminate.
  - eexists. split; [vm_compute; reflexivity |].
    repeat split. discriminate.
Qed.

(** The amended C4 on the same run. *)
Lemma NewSegment_timestamps_witness :
  let env := reference.collaborators reference.plain in
  let num := {| types.Value := 42; types.TTL := 0 |} in
  exists seg : vfs.Segment,
    fst (runState (@vfs.NewSegment env "user:1" (@vfs.Number_value env num) 1)
           reference.world) = Ok seg
    /\ vfs.CreatedAt seg = uint64 1700000000000000000
    /\ vfs.ExpiredAt seg = uint64 (1700000000000000250 + 1 * 1000000000).
Proof.
  cbv zeta. eexists.
  split; [vm_compute; reflexivity |].
  match goal with
  | |- vfs.CreatedAt ?seg = _ /\ _ =>
    pose proof (@NewSegment_timestamps
                  (reference.collaborators reference.plain) "user:1"
                  (@vfs.Number_value
                     (reference.collaborators reference.plain)
                     {| types.Value := 42; types.TTL := 0 |})
                  1 reference.world seg eq_refl)
      as (Hcreated & _ & Hexpired & _)
  end.
  split; [exact Hcreated | apply Hexpired; reflexivity].
Defined.

(** ** Sizes of a constructed segment *)

Lemma NewTombstoneSegment_run (key : string) (w : time.World) :
  fst (runState (vfs.NewTombstoneSegment key) w)
  = {| vfs.Tombstone := 1;
       vfs.Type_ := vfs.Unknown;
       vfs.ExpiredAt := 0;
       vfs.CreatedAt := uint64 (time.clock w (time.reads w));
       vfs.KeySize := uint32 (len_string key);
       vfs.ValueSize := 0;
       vfs.Key := bytes_of_string key;
       vfs.Value := [] |}.
Proof.
  cbn. unfold time.UnixNano. rewrite uint64_int64. reflexivity.
Qed.

Section Sizes.

Context `{C : vfs.Collaborators}.

(** C6, amended: a segment from [NewSegment] has tombstone 0, the bytes of
    the key as its key, and as key size and value size the lengths of its
    key and value modulo 2^32, so the lengths themselves when they are below
    2^32.  [NewTombstoneSegment] returns, for every key and clock, a segment
    with tombstone 1, kind [Unknown], an empty value, value size 0 and expiry
    0, on which [IsTombstone] is true; its key size is the length of the key
    modulo 2^32.  So tombstone 1 comes with kind [Unknown] and value size 0
    on both paths. *)
Theorem constructed_segment_sizes (key : string) (data : vfs.Serializable)
    (ttl : Z) (w : time.World) (seg : vfs.Segment)
    (Hrun : fst (runState (vfs.NewSegment key data ttl) w) = Ok seg) :
  vfs.Key seg = bytes_of_string key
  /\ vfs.KeySize seg = uint32 (len (vfs.Key seg))
  /\ vfs.ValueSize seg = uint32 (len (vfs.Value seg))
  /\ (len_string key < 2 ^ 32 -> vfs.KeySize seg = len (vfs.Key seg))
  /\ (len (vfs.Value seg) < 2 ^ 32 ->
      vfs.ValueSize seg = len (vfs.Value seg))
  /\ vfs.Tombstone seg = 0
  /\ (vfs.Tombstone seg = 1 ->
      vfs.Type_ seg = vfs.Unknown /\ vfs.ValueSize seg = 0)
  /\ (forall key' w',
        let t := fst (runState (vfs.NewTombstoneSegment key') w') in
        vfs.Tombstone t = 1
        /\ vfs.IsTombstone t = true
        /\ vfs.Type_ t = vfs.Unknown
        /\ vfs.Value t = []
        /\ vfs.ValueSize t = 0
        /\ vfs.ValueSize t = len (vfs.Value t)
        /\ vfs.ExpiredAt t = 0
        /\ vfs.Key t = bytes_of_string key'
        /\ vfs.KeySize t = uint32 (len (vfs.Key t))
        /\ (len_string key' < 2 ^ 32 -> vfs.KeySize t = len (vfs.Key t))).
Proof.
  apply NewSegment_fst_inv in Hrun
    as (Htomb & _ & _ & Hksize & Hvsize & Hkey).
  split; [exact Hkey |].
  split; [now rewrite Hkey, len_bytes_of_string |].
  split; [exact Hvsize |].
  split.
  { intros Hlen. rewrite Hksize, Hkey, len_bytes_of_string.
    apply uint32_id. unfold is_uint32, len_string in *. lia. }
  split.
  { intros Hlen. rewrite Hvsize. apply uint32_id.
    unfold is_uint32, len in *. lia. }
  split; [exact Htomb |].
  split; [rewrite Htomb; discriminate |].
  intros key' w'. cbv zeta. rewrite NewTombstoneSegment_run.
  cbn [vfs.Tombstone vfs.Type_ vfs.Value vfs.ValueSize vfs.ExpiredAt vfs.Key
       vfs.KeySize].
  rewrite len_bytes_of_string.
  repeat split; try reflexivity.
  intros Hlen. apply uint32_id. unfold is_uint32, len_string in *. lia.
Qed.

End Sizes.

(** C6, as stated, fails: for a key of 2^32 bytes the key size of the
    tombstone segment is 0, not the length of its key. *)
Lemma KeySize_of_long_key :
  let key := Repeat "a" (Z.to_nat 4294967296) in
  let t := fst (runState (vfs.NewTombstoneSegment key) reference.world) in
  len (vfs.Key t) = 4294967296
  /\ vfs.KeySize t = 0
  /\ vfs.KeySize t <> len (vfs.Key t).
Proof.
  cbv zeta. rewrite NewTombstoneSegment_run.
  cbn [vfs.Key vfs.KeySize].
  rewrite len_bytes_of_string. unfold len_string.
  rewrite length_Repeat, Z2Nat.id by discriminate.
  repeat split. discriminate.
Qed.

(** The amended C6 at key "user:1" and the [Number] 42. *)
Lemma constructed_segment_sizes_witness :
  let env := reference.collaborators reference.plain in
  let num := {| types.Value := 42; types.TTL := 0 |} in
  exists seg : vfs.Segment,
    fst (runState (@vfs.NewSegment env "user:1" (@vfs.Number_value env num) 0)
           reference.world) = Ok seg
    /\ vfs.KeySize seg = uint32 (len (vfs.Key seg))
    /\ vfs.ValueSize seg = uint32 (len (vfs.Value seg)).
Proof.
  cbv zeta. eexists.
  split; [vm_compute; reflexivity |].
  match goal with
  | |- vfs.KeySize ?seg = _ /\ _ =>
    pose proof (@constructed_segment_sizes
                  (reference.collaborators reference.plain) "user:1"
                  (@vfs.Number_value
                     (reference.collaborators reference.plain)
                     {| types.Value := 42; types.TTL := 0 |})
                  0 reference.world seg eq_refl)
      as (_ & Hksize & Hvsize & _)
  end.
  split; [exact Hksize | exact Hvsize].
Defined.

(** ** The size of a record *)

Lemma length_put_le (width : nat) (z : Z) :
  List.length (put_le width z) = width.
Proof.
  revert z. induction width as [|n IH]; intros z; cbn;
    [reflexivity | now rewrite IH].
Qed.

Lemma len_app {A : Type} (l1 l2 : list A) : len (l1 ++ l2) = len l1 + len l2.
Proof. unfold len. rewrite length_app. lia. Qed.

Lemma len_put_le (width : nat) (z : Z) : len (put_le width z) = Z.of_nat width.
Proof. unfold len. now rewrite length_put_le. Qed.

Lemma len_wire_header (s : vfs.Segment) : len (wire_header s) = 26.
Proof.
  unfold wire_header. rewrite !len_app, !len_put_le. reflexivity.
Qed.

Lemma len_serialize (crc32 : list byte -> Z) (s : vfs.Segment) :
  len (serialize crc32 s) = 26 + len (vfs.Key s) + len (vfs.Value s) + 4.
Proof.
  unfold serialize. cbv zeta.
  rewrite !len_app, len_wire_header, len_put_le. lia.
Qed.

Lemma Size_mod (s : vfs.Segment) :
  vfs.Size s = (26 + vfs.KeySize s + vfs.ValueSize s + 4) mod 2 ^ 32.
Proof.
  unfold vfs.Size, uint32.
  rewrite (Zplus_mod_idemp_l (26 + vfs.KeySize s)), Zplus_mod_idemp_l.
  reflexivity.
Qed.

(** C7, amended: [Size] is 26 + key size + value size + 4 computed in
    [uint32], that is modulo 2^32.  The serialized record has 26 header
    bytes, the key, the value and 4 checksum bytes; when the two sizes are
    the lengths of the key and the value and the sum is below 2^32, [Size] is
    that sum and the exact length of the serialized record. *)
Theorem Size_is_wire_length (crc32 : list byte -> Z) (s : vfs.Segment)
    (Hkey : vfs.KeySize s = len (vfs.Key s))
    (Hvalue : vfs.ValueSize s = len (vfs.Value s))
    (Hfit : 26 + vfs.KeySize s + vfs.ValueSize s + 4 < 2 ^ 32) :
  vfs.Size s = 26 + vfs.KeySize s + vfs.ValueSize s + 4
  /\ vfs.Size s = len (serialize crc32 s)
  /\ len (wire_header s) = 26
  /\ len (wire_header s) = 1 + 1 + 8 + 8 + 4 + 4
  /\ (forall s' : vfs.Segment,
        vfs.Size s'
        = (26 + vfs.KeySize s' + vfs.ValueSize s' + 4) mod 2 ^ 32
        /\ len (serialize crc32 s')
           = 26 + len (vfs.Key s') + len (vfs.Value s') + 4).
Proof.
  assert (Hsize : vfs.Size s = 26 + vfs.KeySize s + vfs.ValueSize s + 4).
  { rewrite Size_mod. apply Z.mod_small.
    rewrite Hkey, Hvalue in *. unfold len in *. lia. }
  split; [exact Hsize |].
  split; [rewrite Hsize, len_serialize, Hkey, Hvalue; reflexivity |].
  split; [apply len_wire_header |].
  split; [apply len_wire_header |].
  intros s'. split; [apply Size_mod | apply len_serialize].
Qed.

(** C7, as stated, fails: the tombstone segment of a key of 2^32 - 30 bytes
    has the length of its key as key size, and its [Size] is 0, while
    26 + key size + value size + 4 and the length of the serialized record
    are 2^32. *)
Lemma Size_wraps_at_4GiB :
  let key := Repeat "a" (Z.to_nat 4294967266) in
  let t := fst (runState (vfs.NewTombstoneSegment key) reference.world) in
  vfs.KeySize t = len (vfs.Key t)
  /\ vfs.ValueSize t = len (vfs.Value t)
  /\ 26 + vfs.KeySize t + vfs.ValueSize t + 4 = 4294967296
  /\ len (serialize (fun _ => 0) t) = 4294967296
  /\ vfs.Size t = 0
  /\ vfs.Size t <> 26 + vfs.KeySize t + vfs.ValueSize t + 4
  /\ vfs.Size t <> len (serialize (fun _ => 0) t).
Proof.
  cbv zeta. rewrite len_serialize, Size_mod, NewTombstoneSegment_run.
  cbn [vfs.Key vfs.KeySize vfs.Value vfs.ValueSize].
  rewrite len_bytes_of_string. unfold len_string.
  rewrite length_Repeat, Z2Nat.id by discriminate.
  repeat split; discriminate.
Qed.

(** The amended C7 on the segment of key "user:1" and a 34-byte value. *)
Lemma Size_is_wire_length_witness :
  let s := {| vfs.Tombstone := 0; vfs.Type_ := vfs.Number;
              vfs.ExpiredAt := 0; vfs.CreatedAt := 1700000000000000000;
              vfs.KeySize := 6; vfs.ValueSize := 34;
              vfs.Key := bytes_of_string "user:1";
              vfs.Value := reference.Number_document
                             {| types.Value := 42; types.TTL := 0 |} |} in
  vfs.KeySize s = len (vfs.Key s)
  /\ vfs.ValueSize s = len (vfs.Value s)
  /\ 26 + vfs.KeySize s + vfs.ValueSize s + 4 < 2 ^ 32
  /\ vfs.Size s = 70
  /\ vfs.Size s = len (serialize (fun _ => 0) s).
Proof.
  cbv zeta. split; [reflexivity |]. split; [reflexivity |].
  split; [reflexivity |]. split; [reflexivity |].
  refine (proj1 (proj2 (Size_is_wire_length (fun _ => 0) _ _ _ _)));
    reflexivity.
Defined.

(** ** Remaining time to live *)

Lemma TTL_run (s : vfs.Segment) (w : time.World) :
  fst (runState (vfs.TTL s) w)
  = (let now := uint64 (time.clock w (time.reads w)) in
     if (0 <? vfs.ExpiredAt s) && (now <? vfs.ExpiredAt s)
     then int64 (uint64 (vfs.ExpiredAt s - now))
     else -1).
Proof.
  unfold vfs.TTL. cbn. unfold time.UnixNano. rewrite uint64_int64.
  destruct ((0 <? vfs.ExpiredAt s)
            && (uint64 (time.clock w (time.reads w)) <? vfs.ExpiredAt s));
    reflexivity.
Qed.

Lemma TTL_live (s : vfs.Segment) (w : time.World) :
  is_uint64 (vfs.ExpiredAt s) ->
  uint64 (time.clock w (time.reads w)) < vfs.ExpiredAt s ->
  fst (runState (vfs.TTL s) w)
  = int64 (vfs.ExpiredAt s - uint64 (time.clock w (time.reads w))).
Proof.
  intros Hs Hnow. rewrite TTL_run. cbv zeta.
  pose proof (uint64_range (time.clock w (time.reads w))) as Hrange.
  unfold is_uint64 in *.
  destruct (Z.ltb_spec 0 (vfs.ExpiredAt s)); [| lia].
  destruct (Z.ltb_spec (uint64 (time.clock w (time.reads w)))
              (vfs.ExpiredAt s)); [| lia].
  cbn. rewrite uint64_id; [reflexivity | unfold is_uint64; lia].
Qed.

Lemma TTL_sentinel (s : vfs.Segment) (w : time.World) :
  vfs.ExpiredAt s = 0
  \/ vfs.ExpiredAt s <= uint64 (time.clock w (time.reads w)) ->
  fst (runState (vfs.TTL s) w) = -1.
Proof.
  intros Hs. rewrite TTL_run. cbv zeta.
  destruct (Z.ltb_spec 0 (vfs.ExpiredAt s)); [| reflexivity].
  destruct (Z.ltb_spec (uint64 (time.clock w (time.reads w)))
              (vfs.ExpiredAt s)); [lia | reflexivity].
Qed.

Section Expiry.

Context `{C : vfs.Collaborators}.

(** C5, amended: for a segment whose expiry is a [uint64] and the clock
    reading now, [TTL] returns expiry - now converted to [int64] when
    now < expiry, which is expiry - now itself, and positive, when that is
    below 2^63; it returns -1 when the expiry is 0 or not after now.  A
    segment built with ttl 0 has [TTL] -1 at every later time.  One built
    with ttl > 0 expires at the second clock reading of its construction
    plus ttl * 10^9 (taken below 2^63): [TTL] is that instant minus now, and
    positive, while now is before it, so at any time before the creation time
    plus ttl * 10^9, and is -1 from that instant on. *)
Theorem TTL_remaining (s : vfs.Segment) (w : time.World)
    (Hs : is_uint64 (vfs.ExpiredAt s)) :
  let now := uint64 (time.clock w (time.reads w)) in
  let remaining := fst (runState (vfs.TTL s) w) in
  (now < vfs.ExpiredAt s -> remaining = int64 (vfs.ExpiredAt s - now))
  /\ (now < vfs.ExpiredAt s -> vfs.ExpiredAt s - now < 2 ^ 63 ->
      remaining = vfs.ExpiredAt s - now /\ 0 < remaining)
  /\ (vfs.ExpiredAt s = 0 \/ vfs.ExpiredAt s <= now -> remaining = -1)
  /\ (forall key data w0 seg,
        fst (runState (vfs.NewSegment key data 0) w0) = Ok seg ->
        forall w1, fst (runState (vfs.TTL seg) w1) = -1)
  /\ (forall key data ttl w0 seg w1,
        let first := time.clock w0 (time.reads w0) in
        let second := time.clock w0 (S (time.reads w0)) in
        let later := time.clock w1 (time.reads w1) in
        0 < ttl ->
        0 <= second -> second + ttl * 1000000000 < 2 ^ 63 ->
        0 <= later < 2 ^ 63 ->
        fst (runState (vfs.NewSegment key data ttl) w0) = Ok seg ->
        (later < second + ttl * 1000000000 ->
         fst (runState (vfs.TTL seg) w1) = second + ttl * 1000000000 - later
         /\ 0 < fst (runState (vfs.TTL seg) w1))
        /\ (second + ttl * 1000000000 <= later ->
            fst (runState (vfs.TTL seg) w1) = -1)
        /\ (0 <= first <= second ->
            later < vfs.CreatedAt seg + ttl * 1000000000 ->
            0 < fst (runState (vfs.TTL seg) w1))).
Proof.
  cbv zeta.
  split; [intros Hnow; now apply TTL_live |].
  split.
  { intros Hnow Hsmall. rewrite (TTL_live s w Hs Hnow).
    rewrite int64_id; [lia | unfold is_int64; lia]. }
  split; [apply TTL_sentinel |].
  split.
  { intros key data w0 seg Hrun w1.
    apply NewSegment_fst_inv in Hrun as (_ & _ & Hexpired & _).
    apply TTL_sentinel. left. exact Hexpired. }
  intros key data ttl w0 seg w1 Httl Hsecond Hfit Hlater Hrun.
  apply NewSegment_fst_inv in Hrun as (_ & Hcreated & Hexpired & _).
  destruct (Z.ltb_spec 0 ttl) as [_ | Hneg]; [| lia].
  rewrite uint64_id in Hexpired by (unfold is_uint64; lia).
  assert (Hnow : uint64 (time.clock w1 (time.reads w1))
                 = time.clock w1 (time.reads w1))
    by (apply uint64_id; unfold is_uint64; lia).
  assert (Hlive : time.clock w1 (time.reads w1)
                  < time.clock w0 (S (time.reads w0)) + ttl * 1000000000 ->
                  fst (runState (vfs.TTL seg) w1)
                  = time.clock w0 (S (time.reads w0)) + ttl * 1000000000
                    - time.clock w1 (time.reads w1)).
  { intros Hbefore. rewrite TTL_live, Hnow, Hexpired.
    - apply int64_id. unfold is_int64. lia.
    - rewrite Hexpired. unfold is_uint64. lia.
    - rewrite Hnow, Hexpired. exact Hbefore. }
  split; [intros Hbefore; rewrite (Hlive Hbefore); lia |].
  split.
  { intros Hafter. apply TTL_sentinel. right. rewrite Hnow, Hexpired.
    exact Hafter. }
  intros Hmono Hbefore.
  rewrite uint64_id in Hcreated by (unfold is_uint64; lia).
  rewrite Hlive; lia.
Qed.

End Expiry.

(** C5, as stated, fails.  [TTL] on a segment whose expiry is 2^64 - 1, read
    at 1700000000000000000, returns the negative -1700000000000000001, not
    expiry - now.  And the segment built with ttl 1 by a clock that advances
    250ns between its two readings still has [TTL] 150 when read 100ns after
    its creation time plus one second. *)
Lemma TTL_is_not_always_the_difference :
  let env := reference.collaborators reference.plain in
  let num := {| types.Value := 42; types.TTL := 0 |} in
  let s := {| vfs.Tombstone := 0; vfs.Type_ := vfs.Number;
              vfs.ExpiredAt := 18446744073709551615;
              vfs.CreatedAt := 1600000000000000000;
              vfs.KeySize := 1; vfs.ValueSize := 0;
              vfs.Key := [x6b]; vfs.Value := [] |} in
  let now := 1700000000000000000 in
  (0 < vfs.ExpiredAt s
   /\ now < vfs.ExpiredAt s
   /\ fst (runState (vfs.TTL s) (reference.frozen now)) = -1700000000000000001
   /\ fst (runState (vfs.TTL s) (reference.frozen now))
      <> vfs.ExpiredAt s - now)
  /\ exists seg : vfs.Segment,
       fst (runState
              (@vfs.NewSegment env "user:1" (@vfs.Number_value env num) 1)
              reference.world) = Ok seg
       /\ vfs.CreatedAt seg + 1 * 1000000000 < 1700000001000000100
       /\ fst (runState (vfs.TTL seg) (reference.frozen 1700000001000000100))
          = 150.
Proof.
  cbv zeta. split.
  - repeat split; vm_compute; congruence.
  - eexists. split; [vm_compute; reflexivity |].
    split; vm_compute; reflexivity.
Qed.

(** The amended C5 on a segment that expires one second after now, and on
    the segment built with ttl 1, read 500ns after its creation time. *)
Lemma TTL_remaining_witness :
  let env := reference.collaborators reference.plain in
  let num := {| types.Value := 42; types.TTL := 0 |} in
  let s := {| vfs.Tombstone := 0; vfs.Type_ := vfs.Number;
              vfs.ExpiredAt := 1700000001000000000;
              vfs.CreatedAt := 1700000000000000000;
              vfs.KeySize := 1; vfs.ValueSize := 0;
              vfs.Key := [x6b]; vfs.Value := [] |} in
  let w := reference.frozen 1700000000000000000 in
  is_uint64 (vfs.ExpiredAt s)
  /\ fst (runState (vfs.TTL s) w) = 1000000000
  /\ 0 < fst (runState (vfs.TTL s) w)
  /\ exists seg : vfs.Segment,
       fst (runState
              (@vfs.NewSegment env "user:1" (@vfs.Number_value env num) 1)
              reference.world) = Ok seg
       /\ fst (runState (vfs.TTL seg) (reference.frozen 1700000000000000500))
          = 999999750.
Proof.
  cbv zeta.
  assert (Hs : is_uint64 1700000001000000000) by (unfold is_uint64; lia).
  pose proof (@TTL_remaining (reference.collaborators reference.plain)
                {| vfs.Tombstone := 0; vfs.Type_ := vfs.Number;
                   vfs.ExpiredAt := 1700000001000000000;
                   vfs.CreatedAt := 1700000000000000000;
                   vfs.KeySize := 1; vfs.ValueSize := 0;
                   vfs.Key := [x6b]; vfs.Value := [] |}
                (reference.frozen 1700000000000000000) Hs)
    as (_ & Hlive & _ & _ & Hbuilt).
  cbv zeta in Hlive, Hbuilt.
  split; [exact Hs |].
  split; [apply Hlive; reflexivity |].
  split; [apply Hlive; reflexivity |].
  eexists. split; [vm_compute; reflexivity |].
  match goal with
  | |- fst (runState (vfs.TTL ?seg) ?w1) = _ =>
    refine (proj1 (proj1
      (Hbuilt "user:1"%string
         (@vfs.Number_value (reference.collaborators reference.plain)
            {| types.Value := 42; types.TTL := 0 |})
         1 reference.world seg w1 _ _ _ _ _) _))
  end.
  - reflexivity.
  - discriminate.
  - reflexivity.
  - split; [discriminate | reflexivity].
  - reflexivity.
  - reflexivity.
Defined.

(** * Further properties of the code *)

(** ** The counter *)

Lemma runState_bind {S A B : Type} (m : state S A) (k : A -> state S B)
    (s : S) :
  runState (bind m k) s
  = runState (k (fst (runState m s))) (snd (runState m s)).
Proof. cbn. destruct (runState m s) as [a s']. reflexivity. Qed.

Lemma Set_run (newValue : Z) (num : types.Number) :
  runState (types.Set_ newValue) num
  = (tt, {| types.Value := newValue; types.TTL := types.TTL num |}).
Proof. unfold types.Set_. rewrite at_Value_run. reflexivity. Qed.

Lemma Get_run (num : types.Number) :
  runState types.Get num = (types.Value num, num).
Proof.
  unfold types.Get. rewrite at_Value_run. destruct num; reflexivity.
Qed.

Lemma CompareAndSwap_run (old new : Z) (num : types.Number) :
  runState (types.CompareAndSwap old new) num
  = if types.Value num =? old
    then (true, {| types.Value := new; types.TTL := types.TTL num |})
    else (false, num).
Proof.
  unfold types.CompareAndSwap. rewrite at_Value_run. cbn.
  destruct (types.Value num =? old); destruct num; reflexivity.
Qed.

Lemma int64_add_int64_l (a b : Z) : int64 (int64 a + b) = int64 (a + b).
Proof. rewrite Z.add_comm, int64_add_int64_r. f_equal. ring. Qed.

(** X1: on a counter that holds an [int64], [Sub delta] after [Add delta],
    and [Add delta] after [Sub delta], return the value the counter had and
    leave the counter as it was, also when the first step wrapped around. *)
Theorem Add_then_Sub_restores (num : types.Number) (delta : Z)
    (Hvalue : is_int64 (types.Value num)) :
  runState (_ <- types.Add delta ;; types.Sub delta) num
  = (types.Value num, num)
  /\ runState (_ <- types.Sub delta ;; types.Add delta) num
     = (types.Value num, num).
Proof.
  rewrite !runState_bind, !Add_run, !Sub_run. cbn [fst snd types.Value types.TTL].
  unfold Z.sub. rewrite !int64_add_int64_l.
  replace (types.Value num + delta + - delta) with (types.Value num) by ring.
  replace (types.Value num + - delta + delta) with (types.Value num) by ring.
  rewrite (int64_id _ Hvalue). destruct num; split; reflexivity.
Qed.

Lemma Add_then_Sub_restores_witness :
  let num := {| types.Value := MaxInt64; types.TTL := 7 |} in
  is_int64 (types.Value num)
  /\ runState (_ <- types.Add 5 ;; types.Sub 5) num = (MaxInt64, num).
Proof.
  cbv zeta.
  assert (H : is_int64 MaxInt64) by (unfold is_int64, MaxInt64; lia).
  split; [exact H |].
  exact (proj1 (Add_then_Sub_restores
                  {| types.Value := MaxInt64; types.TTL := 7 |} 5 H)).
Defined.

Lemma Increment_times_run (n : nat) (num : types.Number) :
  snd (runState (Increment_times n) num)
  = {| types.Value := match n with
                      | O => types.Value num
                      | S _ => int64 (types.Value num + Z.of_nat n)
                      end;
       types.TTL := types.TTL num |}.
Proof.
  revert num. induction n as [|n IH]; intros num.
  - destruct num; reflexivity.
  - cbn [Increment_times]. rewrite runState_bind. unfold types.Increment.
    rewrite Add_run. cbn [fst snd]. rewrite IH. cbn [types.Value types.TTL].
    f_equal. destruct n as [|n'].
    + reflexivity.
    + rewrite int64_add_int64_l. f_equal; lia.
Qed.

(** X2: n calls of [Increment] on a counter that holds an [int64] leave the
    value plus n, wrapped to [int64], so the value plus n itself while that
    is at most the largest [int64]; the [TTL] field is as it was. *)
Theorem Increment_times_adds (n : nat) (num : types.Number)
    (Hvalue : is_int64 (types.Value num)) :
  types.Value (snd (runState (Increment_times n) num))
  = int64 (types.Value num + Z.of_nat n)
  /\ types.TTL (snd (runState (Increment_times n) num)) = types.TTL num
  /\ (types.Value num + Z.of_nat n <= MaxInt64 ->
      fst (runState types.Get (snd (runState (Increment_times n) num)))
      = types.Value num + Z.of_nat n).
Proof.
  rewrite Get_run, Increment_times_run. cbn [fst types.Value types.TTL].
  assert (Hn : match n with
               | O => types.Value num
               | S _ => int64 (types.Value num + Z.of_nat n)
               end = int64 (types.Value num + Z.of_nat n)).
  { destruct n; [| reflexivity].
    rewrite Z.add_0_r. symmetry. now apply int64_id. }
  rewrite Hn. split; [reflexivity |]. split; [reflexivity |].
  intros Hmax. apply int64_id. unfold is_int64, MaxInt64 in *. lia.
Qed.

Lemma Increment_times_adds_witness :
  let num := {| types.Value := 40; types.TTL := 0 |} in
  is_int64 (types.Value num)
  /\ types.Value (snd (runState (Increment_times 2) num)) = int64 (40 + 2).
Proof.
  cbv zeta.
  assert (H : is_int64 40) by (unfold is_int64; lia).
  split; [exact H |].
  exact (proj1 (Increment_times_adds 2
                  {| types.Value := 40; types.TTL := 0 |} H)).
Defined.

(** X3: two [Add]s leave the same counter in either order, the one that a
    single [Add] of the sum of the deltas leaves, and the second [Add]
    returns that final value. *)
Theorem Add_order_is_irrelevant (num : types.Number) (a b : Z) :
  runState (_ <- types.Add a ;; types.Add b) num
  = runState (_ <- types.Add b ;; types.Add a) num
  /\ runState (_ <- types.Add a ;; types.Add b) num
     = runState (types.Add (a + b)) num
  /\ fst (runState (_ <- types.Add a ;; types.Add b) num)
     = int64 (types.Value num + a + b).
Proof.
  rewrite !runState_bind, !Add_run. cbn [fst snd types.Value types.TTL].
  rewrite !int64_add_int64_l.
  replace (types.Value num + b + a) with (types.Value num + a + b) by ring.
  replace (types.Value num + (a + b)) with (types.Value num + a + b) by ring.
  repeat split; reflexivity.
Qed.

(** X4: [Get] returns what the last [Set] stored, whatever the counter held
    and whatever was set before, and leaves the counter alone; [Get] on
    [NewNumber(n)] returns n, and the new counter has [TTL] 0. *)
Theorem Get_returns_last_Set (num : types.Number) (first last n : Z) :
  runState (_ <- types.Set_ last ;; types.Get) num
  = (last, {| types.Value := last; types.TTL := types.TTL num |})
  /\ runState (_ <- types.Set_ first ;; _ <- types.Set_ last ;; types.Get) num
     = runState (_ <- types.Set_ last ;; types.Get) num
  /\ runState (_ <- types.Get ;; types.Get) num = (types.Value num, num)
  /\ runState types.Get (types.NewNumber n) = (n, types.NewNumber n)
  /\ types.TTL (types.NewNumber n) = 0.
Proof.
  repeat (rewrite ?runState_bind, ?Set_run, ?Get_run;
          cbn [fst snd types.TTL types.Value]).
  repeat split; reflexivity.
Qed.

(** [CompareAndSwap] returns true exactly when the counter holds the
    expected value; then it leaves the new value, and otherwise it leaves
    the counter as it was. *)
Lemma CompareAndSwap_swaps_iff_expected (num : types.Number) (old new : Z) :
  (fst (runState (types.CompareAndSwap old new) num) = true
   <-> types.Value num = old)
  /\ (types.Value num = old ->
      snd (runState (types.CompareAndSwap old new) num)
      = {| types.Value := new; types.TTL := types.TTL num |})
  /\ (types.Value num <> old ->
      runState (types.CompareAndSwap old new) num = (false, num)).
Proof.
  rewrite CompareAndSwap_run.
  destruct (Z.eqb_spec (types.Value num) old) as [Heq | Hne]; cbn [fst snd].
  - split; [split; [intros _; exact Heq | reflexivity] |].
    split; [reflexivity | intros Hne; contradiction].
  - split; [split; [discriminate | intros Heq; contradiction] |].
    split; [intros Heq; contradiction | reflexivity].
Qed.

(** X5: reading the counter and swapping in the sum succeeds when nothing
    comes in between, and leaves what [Add] leaves.  When an [Add] of another
    caller changed the value in between, the swap fails and the counter is
    as that [Add] left it: the other update is not lost. *)
Theorem optimistic_Add_is_Add (num : types.Number) (delta other : Z)
    (Hchanged : int64 (types.Value num + other) <> types.Value num) :
  runState (optimistic_Add delta) num
  = (true, snd (runState (types.Add delta) num))
  /\ runState (overtaken_Add delta other) num
     = (false, snd (runState (types.Add other) num)).
Proof.
  unfold optimistic_Add, overtaken_Add.
  rewrite !runState_bind, !Get_run, !Add_run. cbn [fst snd].
  rewrite !CompareAndSwap_run. cbn [types.Value types.TTL].
  rewrite Z.eqb_refl.
  destruct (Z.eqb_spec (int64 (types.Value num + other)) (types.Value num))
    as [Heq | Hne]; [contradiction |].
  split; reflexivity.
Qed.

Lemma optimistic_Add_is_Add_witness :
  let num := {| types.Value := 41; types.TTL := 3 |} in
  int64 (types.Value num + 10) <> types.Value num
  /\ runState (optimistic_Add 1) num
     = (true, {| types.Value := 42; types.TTL := 3 |})
  /\ runState (overtaken_Add 1 10) num
     = (false, {| types.Value := 51; types.TTL := 3 |}).
Proof.
  cbv zeta.
  assert (H : int64 (41 + 10) <> 41) by discriminate.
  split; [exact H |].
  exact (optimistic_Add_is_Add {| types.Value := 41; types.TTL := 3 |} 1 10 H).
Defined.

(** ** Outcomes of [NewSegment] *)

Lemma toKind_tag_range (data : vfs.Serializable) (kind : vfs.Kind) :
  vfs.toKind data = (kind, None) -> 0 <= kind <= 5.
Proof.
  destruct data as [|dynamic tobson]; [discriminate |].
  destruct dynamic as [ | | | | | | elem | name]; cbn;
    try (intros [= <-]; cbv; split; discriminate); try discriminate.
  destruct elem; cbn;
    try (intros [= <-]; cbv; split; discriminate); discriminate.
Qed.

Section Outcomes.

Context `{C : vfs.Collaborators}.

(** X6: [NewSegment] returns a segment exactly when the value has a kind,
    its [ToBSON] succeeds and the transformer encodes the bytes; the segment
    then has that kind and the transformer's output as value. *)
Theorem NewSegment_succeeds_iff (key : string) (data : vfs.Serializable)
    (ttl : Z) (w : time.World) :
  ((exists seg, fst (runState (vfs.NewSegment key data ttl) w) = Ok seg)
   <-> (exists kind bytes payload,
          vfs.toKind data = (kind, None)
          /\ vfs.ToBSON data = Ok bytes
          /\ vfs.Encode vfs.transformer bytes = Ok payload))
  /\ (forall seg,
        fst (runState (vfs.NewSegment key data ttl) w) = Ok seg ->
        vfs.toKind data = (vfs.Type_ seg, None)
        /\ exists bytes,
             vfs.ToBSON data = Ok bytes
             /\ vfs.Encode vfs.transformer bytes = Ok (vfs.Value seg)).
Proof.
  assert (Hinv : forall seg,
            fst (runState (vfs.NewSegment key data ttl) w) = Ok seg ->
            vfs.toKind data = (vfs.Type_ seg, None)
            /\ exists bytes,
                 vfs.ToBSON data = Ok bytes
                 /\ vfs.Encode vfs.transformer bytes = Ok (vfs.Value seg)).
  { intros seg Hrun.
    destruct (runState (vfs.NewSegment key data ttl) w) as [r w'] eqn:Heq.
    cbn in Hrun. subst r.
    apply NewSegment_Ok_inv in Heq as (bytes & Hk & Hb & He & _).
    split; [exact Hk |]. exists bytes. split; assumption. }
  split; [split |]; [| | exact Hinv].
  - intros [seg Hrun]. destruct (Hinv seg Hrun) as (Hk & bytes & Hb & He).
    exists (vfs.Type_ seg), bytes, (vfs.Value seg). repeat split; assumption.
  - intros (kind & bytes & payload & Hk & Hb & He).
    destruct (NewSegment_Ok key data ttl w kind bytes payload Hk Hb He)
      as (seg & Hrun & _).
    exists seg. exact Hrun.
Qed.

(** X7: for a value that has a kind, [NewSegment] returns the error of the
    value's [ToBSON] as it is, without asking the transformer, and returns
    the error of the transformer wrapped, with the message "transformer
    encode: " before the transformer's own; a panic of [ToBSON] is a panic of
    [NewSegment]. *)
Theorem NewSegment_propagates_errors (key : string) (data : vfs.Serializable)
    (ttl : Z) (w : time.World) (kind : vfs.Kind)
    (Hkind : vfs.toKind data = (kind, None)) :
  (forall err, vfs.ToBSON data = Err err ->
     fst (runState (vfs.NewSegment key data ttl) w) = Err err)
  /\ (forall msg, vfs.ToBSON data = Panic msg ->
        fst (runState (vfs.NewSegment key data ttl) w) = Panic msg)
  /\ (forall bytes err,
        vfs.ToBSON data = Ok bytes ->
        vfs.Encode vfs.transformer bytes = Err err ->
        fst (runState (vfs.NewSegment key data ttl) w)
        = Err (fmt_Errorf_w "transformer encode: " err)
        /\ Error (fmt_Errorf_w "transformer encode: " err)
           = ("transformer encode: " ++ Error err)%string).
Proof.
  unfold vfs.NewSegment. rewrite Hkind. cbn.
  split; [| split].
  - intros err Hbson. destruct (0 <? ttl); cbn; rewrite Hbson; reflexivity.
  - intros msg Hbson. destruct (0 <? ttl); cbn; rewrite Hbson; reflexivity.
  - intros bytes err Hbson Henc. split; [| reflexivity].
    destruct (0 <? ttl); cbn; rewrite Hbson; cbn; rewrite Henc; reflexivity.
Qed.

(** X8: [NewSegment] does not read the clock when the value has no kind;
    otherwise it reads it once for ttl 0 and twice for ttl > 0, also when the
    encoding fails afterwards.  The clock itself is as before. *)
Theorem NewSegment_clock_readings (key : string) (data : vfs.Serializable)
    (ttl : Z) (w : time.World) :
  time.clock (snd (runState (vfs.NewSegment key data ttl) w)) = time.clock w
  /\ time.reads (snd (runState (vfs.NewSegment key data ttl) w))
     = (match snd (vfs.toKind data) with
        | Some _ => 0
        | None => if (0 <? ttl)%Z then 2 else 1
        end + time.reads w)%nat.
Proof.
  unfold vfs.NewSegment.
  destruct (vfs.toKind data) as [kind [err|]]; cbn; [split; reflexivity |].
  destruct (0 <? ttl); cbn;
    (destruct (vfs.ToBSON data) as [bytes|err|msg]; cbn;
       [| split; reflexivity ..]);
    destruct (vfs.Encode vfs.transformer bytes); cbn; split; reflexivity.
Qed.

(** X9: a segment from [NewSegment] has one of the six kinds, never
    [Unknown], and is not a tombstone.  The conversion of its kind is the
    only one that gets past the kind check: each of the other five refuses
    it. *)
Theorem live_segment_has_one_conversion (key : string)
    (data : vfs.Serializable) (ttl : Z) (w : time.World) (seg : vfs.Segment)
    (Hrun : fst (runState (vfs.NewSegment key data ttl) w) = Ok seg) :
  0 <= vfs.Type_ seg <= 5
  /\ vfs.Type_ seg <> vfs.Unknown
  /\ vfs.IsTombstone seg = false
  /\ exists c : conversion,
       requested c = vfs.Type_ seg
       /\ forall c', c' <> c -> convert c' seg = failed (refusal c').
Proof.
  destruct (runState (vfs.NewSegment key data ttl) w) as [r w'] eqn:Heq.
  cbn in Hrun. subst r.
  apply NewSegment_Ok_inv in Heq as (bytes & Hk & _ & _ & Htomb & _).
  apply toKind_tag_range in Hk.
  split; [exact Hk |].
  split; [unfold vfs.Unknown; lia |].
  split; [unfold vfs.IsTombstone; now rewrite Htomb |].
  assert (Hcases : vfs.Type_ seg = 0 \/ vfs.Type_ seg = 1
                   \/ vfs.Type_ seg = 2 \/ vfs.Type_ seg = 3
                   \/ vfs.Type_ seg = 4 \/ vfs.Type_ seg = 5) by lia.
  destruct Hcases as [H0 | [H1 | [H2 | [H3 | [H4 | H5]]]]];
    [exists to_Set | exists to_ZSet | exists to_List | exists to_Text
     | exists to_Table | exists to_Number];
    (split; [symmetry; assumption |]);
    intros c' Hc'; apply conversion_refused;
    destruct c'; cbn; try congruence;
    match goal with H : vfs.Type_ seg = _ |- _ => rewrite H end;
    discriminate.
Qed.

End Outcomes.

Lemma NewSegment_propagates_errors_witness :
  let env := reference.collaborators reference.failing in
  let data := @vfs.Number_value env {| types.Value := 42; types.TTL := 0 |} in
  vfs.toKind data = (vfs.Number, None)
  /\ fst (runState (@vfs.NewSegment env "user:1" data 0) reference.world)
     = Err (fmt_Errorf_w "transformer encode: "
              (errors_New "transformer: encoder failed")).
Proof.
  cbv zeta. split; [reflexivity |].
  refine (proj1 (proj2 (proj2
    (@NewSegment_propagates_errors
       (reference.collaborators reference.failing) "user:1"
       (@vfs.Number_value (reference.collaborators reference.failing)
          {| types.Value := 42; types.TTL := 0 |})
       0 reference.world vfs.Number eq_refl))
    (reference.Number_document {| types.Value := 42; types.TTL := 0 |})
    (errors_New "transformer: encoder failed") eq_refl eq_refl)).
Defined.

Lemma live_segment_has_one_conversion_witness :
  let env := reference.collaborators reference.plain in
  let num := {| types.Value := 42; types.TTL := 0 |} in
  exists seg : vfs.Segment,
    fst (runState (@vfs.NewSegment env "user:1" (@vfs.Number_value env num) 0)
           reference.world) = Ok seg
    /\ 0 <= vfs.Type_ seg <= 5
    /\ vfs.IsTombstone seg = false.
Proof.
  cbv zeta. eexists.
  split; [vm_compute; reflexivity |].
  match goal with
  | |- 0 <= vfs.Type_ ?seg <= 5 /\ _ =>
    pose proof (@live_segment_has_one_conversion
                  (reference.collaborators reference.plain) "user:1"
                  (@vfs.Number_value
                     (reference.collaborators reference.plain)
                     {| types.Value := 42; types.TTL := 0 |})
                  0 reference.world seg eq_refl)
      as (Hrange & _ & Hlive & _)
  end.
  split; [exact Hrange | exact Hlive].
Defined.

(** ** Tombstones *)

Section Tombstones.

Context `{C : vfs.Collaborators}.

(** X10: the segment of [NewTombstoneSegment], for every key and clock, is
    refused by each of the six conversions, and its [TTL] is -1 at every
    time. *)
Theorem tombstone_has_no_value_and_no_expiry (key : string)
    (w w' : time.World) (c : conversion) :
  convert c (fst (runState (vfs.NewTombstoneSegment key) w))
  = failed (refusal c)
  /\ fst (runState (vfs.TTL (fst (runState (vfs.NewTombstoneSegment key) w)))
            w') = -1.
Proof.
  rewrite NewTombstoneSegment_run. split.
  - apply conversion_refused. destruct c; discriminate.
  - apply TTL_sentinel. left. reflexivity.
Qed.

(** X11: a conversion looks at the kind and the value of a segment and at
    nothing else: two segments with the same kind and value convert alike,
    whatever their keys, sizes, timestamps and tombstone flags are. *)
Theorem conversions_read_kind_and_value_only (s s' : vfs.Segment)
    (Hkind : vfs.Type_ s = vfs.Type_ s')
    (Hvalue : vfs.Value s = vfs.Value s') :
  vfs.ToSet s = vfs.ToSet s'
  /\ vfs.ToZSet s = vfs.ToZSet s'
  /\ vfs.ToList s = vfs.ToList s'
  /\ vfs.ToText s = vfs.ToText s'
  /\ vfs.ToTable s = vfs.ToTable s'
  /\ vfs.ToNumber s = vfs.ToNumber s'.
Proof.
  unfold vfs.ToSet, vfs.ToZSet, vfs.ToList, vfs.ToText, vfs.ToTable,
    vfs.ToNumber.
  rewrite Hkind, Hvalue. repeat split; reflexivity.
Qed.


(** X13: the [Size] of a segment from [NewSegment] is 30 plus the lengths
    of the key and of the stored value, when that is below 2^32; the [Size]
    of a tombstone segment is 30 plus the length of the key, so 30 for the
    empty key. *)
Theorem Size_of_constructed_segment (key : string) (data : vfs.Serializable)
    (ttl : Z) (w : time.World) (seg : vfs.Segment)
    (Hrun : fst (runState (vfs.NewSegment key data ttl) w) = Ok seg)
    (Hfit : 30 + len_string key + len (vfs.Value seg) < 2 ^ 32) :
  vfs.Size seg = 30 + len_string key + len (vfs.Value seg)
  /\ (forall key' w',
        30 + len_string key' < 2 ^ 32 ->
        vfs.Size (fst (runState (vfs.NewTombstoneSegment key') w'))
        = 30 + len_string key')
  /\ (forall w',
        vfs.Size (fst (runState (vfs.NewTombstoneSegment "") w')) = 30).
Proof.
  apply NewSegment_fst_inv in Hrun as (_ & _ & _ & Hksize & Hvsize & _).
  assert (Hkey : 0 <= len_string key) by (unfold len_string; lia).
  assert (Hval : 0 <= len (vfs.Value seg)) by (unfold len; lia).
  split.
  { rewrite Size_mod, Hksize, Hvsize.
    rewrite !uint32_id by (unfold is_uint32; lia).
    rewrite Z.mod_small; lia. }
  split.
  - intros key' w' Hfit'. rewrite Size_mod, NewTombstoneSegment_run.
    cbn [vfs.KeySize vfs.ValueSize].
    assert (0 <= len_string key') by (unfold len_string; lia).
    rewrite uint32_id by (unfold is_uint32; lia).
    rewrite Z.mod_small; lia.
  - intros w'. rewrite Size_mod, NewTombstoneSegment_run. reflexivity.
Qed.

End Tombstones.

Lemma conversions_read_kind_and_value_only_witness :
  let env := reference.collaborators reference.plain in
  let doc := reference.Number_document
               {| types.Value := 42; types.TTL := 0 |} in
  let s := {| vfs.Tombstone := 0; vfs.Type_ := vfs.Number;
              vfs.ExpiredAt := 0; vfs.CreatedAt := 1700000000000000000;
              vfs.KeySize := 6; vfs.ValueSize := 34;
              vfs.Key := bytes_of_string "user:1"; vfs.Value := doc |} in
  let s' := {| vfs.Tombstone := 1; vfs.Type_ := vfs.Number;
               vfs.ExpiredAt := 1; vfs.CreatedAt := 0;
               vfs.KeySize := 0; vfs.ValueSize := 0;
               vfs.Key := []; vfs.Value := doc |} in
  vfs.Type_ s = vfs.Type_ s'
  /\ vfs.Value s = vfs.Value s'
  /\ @vfs.ToNumber env s' = @vfs.ToNumber env s.
Proof.
  cbv zeta. split; [reflexivity |]. split; [reflexivity |].
  symmetry.
  refine (proj2 (proj2 (proj2 (proj2 (proj2
    (@conversions_read_kind_and_value_only
       (reference.collaborators reference.plain) _ _ _ _)))))).
  - reflexivity.
  - reflexivity.
Defined.

Lemma Size_of_constructed_segment_witness :
  let env := reference.collaborators reference.plain in
  let num := {| types.Value := 42; types.TTL := 0 |} in
  exists seg : vfs.Segment,
    fst (runState (@vfs.NewSegment env "user:1" (@vfs.Number_value env num) 0)
           reference.world) = Ok seg
    /\ 30 + len_string "user:1" + len (vfs.Value seg) < 2 ^ 32
    /\ vfs.Size seg = 30 + len_string "user:1" + len (vfs.Value seg).
Proof.
  cbv zeta. eexists.
  split; [vm_compute; reflexivity |].
  split; [reflexivity |].
  match goal with
  | |- vfs.Size ?seg = _ =>
    refine (proj1 (@Size_of_constructed_segment
                     (reference.collaborators reference.plain) "user:1"
                     (@vfs.Number_value
                        (reference.collaborators reference.plain)
                        {| types.Value := 42; types.TTL := 0 |})
                     0 reference.world seg eq_refl _))
  end.
  reflexivity.
Defined.

(** ** The course of [TTL] over time *)

Lemma int64_nonzero (z : Z) : 0 < z < 2 ^ 64 -> int64 z <> 0.
Proof.
  intros Hz. unfold int64.
  destruct (Z_lt_le_dec z (2 ^ 63)) as [Hlow | Hhigh].
  - rewrite Z.mod_small by lia. lia.
  - replace (z + 2 ^ 63) with (z - 2 ^ 63 + 1 * 2 ^ 64) by ring.
    rewrite Z_mod_plus_full, Z.mod_small by lia. lia.
Qed.

(** X14: [TTL] never returns 0 on a segment whose expiry is a [uint64]: the
    result is the sentinel -1 or a nonzero difference. *)
Theorem TTL_is_never_zero (s : vfs.Segment) (w : time.World)
    (Hs : is_uint64 (vfs.ExpiredAt s)) :
  fst (runState (vfs.TTL s) w) <> 0.
Proof.
  rewrite TTL_run. cbv zeta.
  pose proof (uint64_range (time.clock w (time.reads w))) as Hnow.
  unfold is_uint64 in *.
  destruct (Z.ltb_spec 0 (vfs.ExpiredAt s)); cbn; [| discriminate].
  destruct (Z.ltb_spec (uint64 (time.clock w (time.reads w)))
              (vfs.ExpiredAt s)); cbn; [| discriminate].
  rewrite uint64_id by (unfold is_uint64; lia).
  apply int64_nonzero. lia.
Qed.

Lemma TTL_is_never_zero_witness :
  let s := {| vfs.Tombstone := 0; vfs.Type_ := vfs.Number;
              vfs.ExpiredAt := 1700000000000000001;
              vfs.CreatedAt := 1700000000000000000;
              vfs.KeySize := 1; vfs.ValueSize := 0;
              vfs.Key := [x6b]; vfs.Value := [] |} in
  is_uint64 (vfs.ExpiredAt s)
  /\ fst (runState (vfs.TTL s) (reference.frozen 1700000000000000000)) <> 0
  /\ fst (runState (vfs.TTL s) (reference.frozen 1700000000000000001)) <> 0.
Proof.
  cbv zeta.
  assert (Hs : is_uint64 1700000000000000001) by (unfold is_uint64; lia).
  split; [exact Hs |].
  split; apply TTL_is_never_zero; exact Hs.
Defined.

(** X15: on a segment whose expiry is below 2^63, [TTL] does not grow as the
    clock advances: read at a later time it is at most what it was, it is
    never below -1, and once it is -1 it stays -1. *)
Theorem TTL_does_not_grow (s : vfs.Segment) (w1 w2 : time.World)
    (Hs : 0 <= vfs.ExpiredAt s < 2 ^ 63)
    (Hfirst : 0 <= time.clock w1 (time.reads w1))
    (Hlater : time.clock w1 (time.reads w1) <= time.clock w2 (time.reads w2))
    (Hrange : time.clock w2 (time.reads w2) < 2 ^ 64) :
  fst (runState (vfs.TTL s) w2) <= fst (runState (vfs.TTL s) w1)
  /\ -1 <= fst (runState (vfs.TTL s) w2)
  /\ (fst (runState (vfs.TTL s) w1) = -1 ->
      fst (runState (vfs.TTL s) w2) = -1).
Proof.
  rewrite !TTL_run. cbv zeta.
  set (t1 := time.clock w1 (time.reads w1)) in *.
  set (t2 := time.clock w2 (time.reads w2)) in *.
  set (E := vfs.ExpiredAt s) in *.
  rewrite (uint64_id t1), (uint64_id t2) by (unfold is_uint64; lia).
  destruct (Z.ltb_spec 0 E); cbn [andb]; [| repeat split; lia].
  destruct (Z.ltb_spec t1 E); destruct (Z.ltb_spec t2 E); cbv iota;
    rewrite ?(uint64_id (E - t1)), ?(uint64_id (E - t2))
      by (unfold is_uint64; lia);
    rewrite ?(int64_id (E - t1)), ?(int64_id (E - t2))
      by (unfold is_int64; lia);
    repeat split; lia.
Qed.

Lemma TTL_does_not_grow_witness :
  let s := {| vfs.Tombstone := 0; vfs.Type_ := vfs.Number;
              vfs.ExpiredAt := 1700000001000000000;
              vfs.CreatedAt := 1700000000000000000;
              vfs.KeySize := 1; vfs.ValueSize := 0;
              vfs.Key := [x6b]; vfs.Value := [] |} in
  let w1 := reference.frozen 1700000000000000000 in
  let w2 := reference.frozen 1700000000500000000 in
  0 <= vfs.ExpiredAt s < 2 ^ 63
  /\ fst (runState (vfs.TTL s) w2) <= fst (runState (vfs.TTL s) w1).
Proof.
  cbv zeta.
  assert (Hs : 0 <= 1700000001000000000 < 2 ^ 63) by lia.
  split; [exact Hs |].
  refine (proj1 (TTL_does_not_grow
                   {| vfs.Tombstone := 0; vfs.Type_ := vfs.Number;
                      vfs.ExpiredAt := 1700000001000000000;
                      vfs.CreatedAt := 1700000000000000000;
                      vfs.KeySize := 1; vfs.ValueSize := 0;
                      vfs.Key := [x6b]; vfs.Value := [] |}
                   (reference.frozen 1700000000000000000)
                   (reference.frozen 1700000000500000000) Hs _ _ _));
    cbn; lia.
Defined.

(** ** Tags *)

(** X16: [toKind] returns an error exactly when it returns [Unknown]; without
    an error the tag is one of the six from 0 to 5, and the error, when there
    is one, is always "unknown data type". *)
Theorem toKind_error_iff_Unknown (data : vfs.Serializable) :
  (snd (vfs.toKind data) = None <-> fst (vfs.toKind data) <> vfs.Unknown)
  /\ (snd (vfs.toKind data) = None -> 0 <= fst (vfs.toKind data) <= 5)
  /\ (forall err,
        snd (vfs.toKind data) = Some err ->
        fst (vfs.toKind data) = vfs.Unknown
        /\ err = errors_New "unknown data type").
Proof.
  assert (Hcases :
            (snd (vfs.toKind data) = None
             /\ 0 <= fst (vfs.toKind data) <= 5)
            \/ vfs.toKind data
               = (vfs.Unknown, Some (errors_New "unknown data type"))).
  { destruct data as [|dynamic tobson]; [right; reflexivity |].
    destruct dynamic as [ | | | | | | elem | name];
      try (right; reflexivity);
      try (left; cbv; repeat split; discriminate).
    destruct elem; try (right; reflexivity).
    left; cbv; repeat split; discriminate. }
  destruct Hcases as [[Hnone Hrange] | Hrej].
  - rewrite Hnone. split; [| split].
    + split; [intros _; unfold vfs.Unknown; lia | reflexivity].
    + intros _. exact Hrange.
    + discriminate.
  - rewrite Hrej. cbn [fst snd]. split; [| split].
    + split; [discriminate | intros Hne; now contradiction Hne].
    + discriminate.
    + intros err [= <-]. split; reflexivity.
Qed.

(** X17: the tag tells the variant: two values that [toKind] accepts with the
    same tag have the same dynamic type, or are a [Number] and a pointer to
    a [Number]. *)
Theorem toKind_tag_tells_type (t1 t2 : vfs.GoType)
    (r1 r2 : result (list byte))
    (H1 : snd (vfs.toKind (vfs.iface t1 r1)) = None)
    (H2 : snd (vfs.toKind (vfs.iface t2 r2)) = None)
    (Htag : fst (vfs.toKind (vfs.iface t1 r1))
            = fst (vfs.toKind (vfs.iface t2 r2))) :
  t1 = t2 \/ fst (vfs.toKind (vfs.iface t1 r1)) = vfs.Number.
Proof.
  destruct t1 as [ | | | | | | e1 | n1]; try discriminate H1;
    try (destruct e1; try discriminate H1);
    (destruct t2 as [ | | | | | | e2 | n2]; try discriminate H2;
     try (destruct e2; try discriminate H2));
    try (left; reflexivity); try (right; reflexivity);
    cbv in Htag; discriminate Htag.
Qed.

Lemma toKind_tag_tells_type_witness :
  snd (vfs.toKind (vfs.iface vfs.type_Text (Ok []))) = None
  /\ fst (vfs.toKind (vfs.iface vfs.type_Text (Ok [])))
     = fst (vfs.toKind (vfs.iface vfs.type_Text (Ok [x2a])))
  /\ (vfs.type_Text = vfs.type_Text
      \/ fst (vfs.toKind (vfs.iface vfs.type_Text (Ok []))) = vfs.Number).
Proof.
  split; [reflexivity |]. split; [reflexivity |].
  exact (toKind_tag_tells_type vfs.type_Text vfs.type_Text (Ok []) (Ok [x2a])
           eq_refl eq_refl eq_refl).
Defined.
